(** * User API handlers: jupyterhub/apihandlers/users.py

    A shallow embedding of the REST handlers for users and their
    single-user servers, together with the authorization decorators that
    gate them.  Handler methods are computations in a state-and-exception
    monad over the handler's observable state (the database session, the
    committed database, the HTTP response under construction and the
    sequence of calls made to external collaborators). *)

From Stdlib Require Import ZArith Floats.SpecFloat.
From stdpp Require Import base option list strings.

Local Open Scope string_scope.
Local Open Scope list_scope.
Local Open Scope Z_scope.

Local Set Warnings "-register-all".

(** ** JSON values as Python sees them after [json.loads] *)

Inductive json : Type :=
| JNull
| JBool (b : bool)
| JInt (n : Z)
| JFloat (x : spec_float)
| JStr (s : string)
| JList (xs : list json)
| JDict (kvs : list (string * json)).

(** The Python classes of those values. *)
Inductive pytype : Type :=
| NoneType | py_bool | py_int | py_float | py_str | py_list | py_dict.

Definition pytype_eqb (a b : pytype) : bool :=
  match a, b with
  | NoneType, NoneType | py_bool, py_bool | py_int, py_int
  | py_float, py_float | py_str, py_str | py_list, py_list
  | py_dict, py_dict => true
  | _, _ => false
  end.

Definition type_of (v : json) : pytype :=
  match v with
  | JNull => NoneType
  | JBool _ => py_bool
  | JInt _ => py_int
  | JFloat _ => py_float
  | JStr _ => py_str
  | JList _ => py_list
  | JDict _ => py_dict
  end.

(** [isinstance(v, t)]: the class of [v] is [t] or a subclass of it; the
    only subclass relation among these classes is [bool <: int]. *)
Definition isinstance (v : json) (t : pytype) : bool :=
  match type_of v, t with
  | py_bool, py_int => true
  | c, _ => pytype_eqb c t
  end.

(** Truth value of a Python object, as tested by [if data:]. *)
Definition truthy (v : json) : bool :=
  match v with
  | JNull => false
  | JBool b => b
  | JInt n => negb (n =? 0)
  | JFloat x => match x with S754_zero _ => false | _ => true end
  | JStr s => negb (String.eqb s "")
  | JList xs => match xs with [] => false | _ => true end
  | JDict kvs => match kvs with [] => false | _ => true end
  end.

(** ** Dictionaries

    A Python dict keeps its items in insertion order, which is the order
    [items()] iterates in; it is kept here as an association list. *)

Definition dict (V : Type) : Type := list (string * V).

Definition dict_keys {V} (d : dict V) : list string := d.*1.

Fixpoint dict_get {V} (d : dict V) (k : string) : option V :=
  match d with
  | [] => None
  | (k', v) :: d' => if String.eqb k' k then Some v else dict_get d' k
  end.

(** [k in d] *)
Definition dict_in {V} (k : string) (d : dict V) : bool :=
  match dict_get d k with Some _ => true | None => false end.

(** [d[k] = v]: overwrite in place, or append a new item. *)
Fixpoint dict_set {V} (d : dict V) (k : string) (v : V) : dict V :=
  match d with
  | [] => [(k, v)]
  | (k', v') :: d' =>
      if String.eqb k' k then (k', v) :: d' else (k', v') :: dict_set d' k v
  end.

(** [set(a).issubset(set(b))] on key collections. *)
Definition issubset (a b : list string) : bool :=
  forallb (fun k => existsb (String.eqb k) b) a.

(** ** Exceptions

    [web.HTTPError] carries a status code and an optional log message; the
    messages the handlers format are kept structured.  Any other Python
    exception is [PyException]. *)

Inductive message : Type :=
| InvalidJSONData (model : json)
| InvalidJSONKeys (model : json)
| MustBe (key : string) (expected actual : pytype)
| AlreadyExists (name : string)
| FailedToCreate (name : string)
| CannotDeleteYourself
| ServerStopping (name : string)
| AlreadyRunning (name : string)
| IsNotRunning (name : string)
| AdminAccessDisabled.

Inductive exn : Type :=
| HTTPError (code : Z) (msg : option message)
| PyException (what : string).

(** The error kinds of the handlers, named as the design document names
    them. *)
Definition Forbidden : exn := HTTPError 403 None.
Definition NotFound : exn := HTTPError 404 None.
Definition InvalidPayload (model : json) : exn :=
  HTTPError 400 (Some (InvalidJSONData model)).
Definition InvalidKeys (model : json) : exn :=
  HTTPError 400 (Some (InvalidJSONKeys model)).
Definition TypeMismatch (key : string) (expected actual : pytype) : exn :=
  HTTPError 400 (Some (MustBe key expected actual)).
Definition Conflict (m : message) : exn := HTTPError 400 (Some m).
Definition ProvisioningFailed (name : string) : exn :=
  HTTPError 400 (Some (FailedToCreate name)).
Definition SelfDeletion : exn := HTTPError 400 (Some CannotDeleteYourself).
Definition ServerBusy (name : string) : exn :=
  HTTPError 400 (Some (ServerStopping name)).
Definition NotRunning (name : string) : exn :=
  HTTPError 400 (Some (IsNotRunning name)).
Definition FeatureDisabled : exn := HTTPError 403 (Some AdminAccessDisabled).

Definition http_code (e : exn) : Z :=
  match e with
  | HTTPError code _ => code
  | PyException _ => 500
  end.

Inductive result (A : Type) : Type :=
| Ok (a : A)
| Raise (e : exn).
Arguments Ok {A} a.
Arguments Raise {A} e.

(** ** BaseUserHandler._model_types and _check_user_model *)

Definition _model_types : dict pytype :=
  [("name", py_str); ("admin", py_bool)].

(** The loop of [_check_user_model] over [model.items()].  The key check
    before it guarantees that [_model_types[key]] exists; a missing key
    would be a [KeyError]. *)
Fixpoint check_items (items : dict json) : result unit :=
  match items with
  | [] => Ok tt
  | (key, value) :: rest =>
      match dict_get _model_types key with
      | None => Raise (PyException "KeyError")
      | Some t =>
          if negb (isinstance value t)
          then Raise (TypeMismatch key t (type_of value))
          else check_items rest
      end
  end.

Definition _check_user_model (model : json) : result unit :=
  match model with
  | JDict items =>
      if negb (issubset (dict_keys items) (dict_keys _model_types))
      then Raise (InvalidKeys model)
      else check_items items
  | _ => Raise (InvalidPayload model)
  end.

(** ** The ORM objects the handlers touch *)

Module orm.

(** Modelled from the spec: the Spawner handle of a user (the class is
    declared outside this file).  [poll] is what polling the backing
    process answers: [None] while it is alive, its exit code once it has
    exited. *)
Record Spawner := mkSpawner { poll : option Z }.

Record Server := mkServer { base_url : string }.

(** Modelled from the spec: the UserRecord ([orm.User], declared outside
    this file), with the attributes the handlers read and write. *)
Record User := mkUser {
  name : string;
  admin : bool;
  server : option Server;
  spawner : option Spawner;
  spawn_pending : bool;
  stop_pending : bool;
  last_activity : string   (* already in ISO 8601 form *)
}.

(** Modelled from the spec: [User.running], true when the user has a
    spawner handle and a server. *)
Definition running (u : User) : bool :=
  match spawner u, server u with
  | Some _, Some _ => true
  | _, _ => false
  end.

(** A record as the store creates it for a new name. *)
Definition new (n : string) : User :=
  mkUser n false None None false false "1970-01-01T00:00:00".

Definition set_name (v : string) (u : User) : User :=
  mkUser v (admin u) (server u) (spawner u)
         (spawn_pending u) (stop_pending u) (last_activity u).

Definition set_admin (v : bool) (u : User) : User :=
  mkUser (name u) v (server u) (spawner u)
         (spawn_pending u) (stop_pending u) (last_activity u).

End orm.

(** ** Handler state

    A user object is referred to by its position in the session; the
    session is what queries see, [committed] is what the last
    [db.commit()] made durable. *)

Abbreviation UserRef := nat.

(** Calls made to the external collaborators, in order. *)
Inductive call : Type :=
| LogWarn
| LogError
| SpawnerPoll (user : UserRef)
| SpawnSingleUser (user : UserRef)
| StopSingleUser (user : UserRef)
| AuthAddUser (user : UserRef)
| AuthDeleteUser (user : UserRef)
| DbAdd (user : UserRef)
| DbDelete (user : UserRef)
| DbCommit
| SetServerCookie (user : UserRef).

Record state := mkState {
  session : list orm.User;
  committed : list orm.User;
  calls : list call;
  status : Z;
  written : list json;
  server_cookie : option orm.User
}.

Definition with_session (f : list orm.User -> list orm.User) (st : state) : state :=
  mkState (f (session st)) (committed st) (calls st)
          (status st) (written st) (server_cookie st).

Definition record_call (c : call) (st : state) : state :=
  mkState (session st) (committed st) (calls st ++ [c])
          (status st) (written st) (server_cookie st).

Definition commit_session (st : state) : state :=
  mkState (session st) (session st) (calls st)
          (status st) (written st) (server_cookie st).

Definition with_status (code : Z) (st : state) : state :=
  mkState (session st) (committed st) (calls st)
          code (written st) (server_cookie st).

Definition with_written (chunk : json) (st : state) : state :=
  mkState (session st) (committed st) (calls st)
          (status st) (written st ++ [chunk]) (server_cookie st).

Definition with_cookie (u : orm.User) (st : state) : state :=
  mkState (session st) (committed st) (calls st)
          (status st) (written st) (Some u).

(** How the collaborators answer during one request. *)
Inductive spawn_outcome : Type :=
| SpawnDone (sp : orm.Spawner) (srv : orm.Server)
| SpawnSlow (sp : orm.Spawner)
| SpawnRaises (what : string).

Inductive stop_outcome : Type :=
| StopDone
| StopSlow
| StopRaises (what : string).

(** [self]: what a handler instance is constructed with for one request. *)
Record Handler := mkHandler {
  current_user : option orm.User;
  json_body : json;
  admin_access : option bool;          (* settings.get('admin_access') *)
  add_user_raises : option string;     (* authenticator.add_user *)
  delete_user_raises : option string;  (* authenticator.delete_user *)
  on_spawn : spawn_outcome;
  on_stop : stop_outcome
}.

(** ** The monad of handler methods *)

Definition M (A : Type) : Type := state -> result A * state.

Definition ret {A} (a : A) : M A := fun st => (Ok a, st).

Definition raise {A} (e : exn) : M A := fun st => (Raise e, st).

Definition bind {A B} (m : M A) (k : A -> M B) : M B :=
  fun st =>
    match m st with
    | (Ok a, st') => k a st'
    | (Raise e, st') => (Raise e, st')
    end.

(** [try: m except Exception: h] *)
Definition try_except {A} (m : M A) (h : exn -> M A) : M A :=
  fun st =>
    match m st with
    | (Ok a, st') => (Ok a, st')
    | (Raise e, st') => h e st'
    end.

Definition lift {A} (r : result A) : M A := fun st => (r, st).

Definition modify (f : state -> state) : M unit := fun st => (Ok tt, f st).

Definition gets {A} (f : state -> A) : M A := fun st => (Ok (f st), st).

Notation "'do' x <- m ; k" := (bind m (fun x => k))
  (at level 10, x name, m at level 100, k at level 200,
   format "'[v' 'do'  x  <-  m ; '/' k ']'").
Notation "'run' m ; k" := (bind m (fun _ => k))
  (at level 10, m at level 100, k at level 200,
   format "'[v' 'run'  m ; '/' k ']'").

Definition when (b : bool) (m : M unit) : M unit := if b then m else ret tt.

(** [x is None] and [x is not None]; an ORM object is always true in a
    condition, so [if x:] on an optional object is the latter too. *)
Definition is_none {A} (x : option A) : bool :=
  match x with None => true | Some _ => false end.

Definition is_not_none {A} (x : option A) : bool := negb (is_none x).

Definition do_call (c : call) : M unit := modify (record_call c).

(** ** Services of the base handler and of the collaborators

    [APIHandler] (the base class), the store, the authenticator and the
    spawner live outside this file; they are modelled from their
    interfaces. *)

(** Modelled from the spec: Store.findByName, [find_user] of the base
    handler: the first user of that name in the session, or [None]. *)
Definition find_user (self : Handler) (name : string) : M (option UserRef) :=
  gets (fun st => fst <$> list_find (fun u => orm.name u = name) (session st)).

(** Modelled from the spec: [get_current_user] of the base handler, the
    authenticated caller of the request, or [None] when there is none. *)
Definition get_current_user (self : Handler) : M (option orm.User) :=
  ret (current_user self).

(** Modelled from the spec: [get_json_body] of the base handler, the
    payload of the request as parsed JSON, [None] when there is no body. *)
Definition get_json_body (self : Handler) : M json :=
  ret (json_body self).

(** Reading an attribute of [user]; on [None] Python raises
    [AttributeError]. *)
Definition getattr {A} (user : option UserRef) (f : orm.User -> A) : M A :=
  fun st =>
    match user with
    | None => (Raise (PyException "AttributeError"), st)
    | Some r =>
        match session st !! r with
        | Some u => (Ok (f u), st)
        | None => (Raise (PyException "DetachedInstanceError"), st)
        end
    end.

Definition update (user : option UserRef) (f : orm.User -> orm.User) : M unit :=
  run getattr user id;
  match user with
  | Some r => modify (with_session (alter f r))
  | None => ret tt
  end.

(** [setattr(user, key, value)] for the keys and value types that
    [_check_user_model] lets through; the handlers call it only after that
    check, so the last branch is never taken. *)
Definition setattr (user : option UserRef) (key : string) (value : json) : M unit :=
  match value with
  | JStr s =>
      if String.eqb key "name" then update user (orm.set_name s)
      else raise (PyException "TypeError")
  | JBool b =>
      if String.eqb key "admin" then update user (orm.set_admin b)
      else raise (PyException "TypeError")
  | _ => raise (PyException "TypeError")
  end.

(** Modelled from the spec: Store.commit, which makes the session
    durable, and Store.delete, which removes a record from the session. *)
Definition db_commit : M unit :=
  run modify commit_session;
  do_call DbCommit.

Definition db_delete (user : option UserRef) : M unit :=
  match user with
  | Some r =>
      run modify (with_session (delete r));
      do_call (DbDelete r)
  | None => raise (PyException "UnmappedInstanceError")
  end.

(** Modelled from the spec: [user_from_username] of the base handler,
    Store.create followed by commit when no record of that name exists;
    [post] below relies on the record being in the store, since its
    failure path deletes it again. *)
Definition user_from_username (self : Handler) (name : string) : M (option UserRef) :=
  do user <- find_user self name;
  match user with
  | Some r => ret (Some r)
  | None =>
      do r <- gets (fun st => length (session st));
      run modify (with_session (fun l => (l ++ [orm.new name])%list));
      run do_call (DbAdd r);
      run db_commit;
      ret (Some r)
  end.

(** Modelled from the spec: Authenticator.addUser and deleteUser, which
    succeed or raise. *)
Definition authenticator_add_user (self : Handler) (user : option UserRef) : M unit :=
  do r <- getattr user id;
  run do_call (AuthAddUser (default 0%nat user));
  match add_user_raises self with
  | None => ret tt
  | Some what => raise (PyException what)
  end.

Definition authenticator_delete_user (self : Handler) (user : option UserRef) : M unit :=
  do r <- getattr user id;
  run do_call (AuthDeleteUser (default 0%nat user));
  match delete_user_raises self with
  | None => ret tt
  | Some what => raise (PyException what)
  end.

(** Modelled from the spec: Spawner.poll. *)
Definition spawner_poll (user : option UserRef) (sp : option orm.Spawner) : M (option Z) :=
  match sp with
  | None => raise (PyException "AttributeError")
  | Some sp =>
      run do_call (SpawnerPoll (default 0%nat user));
      ret (orm.poll sp)
  end.

(** Modelled from the spec: what a spawn and a stop do to the record:
    a completed spawn leaves a handle and a server and no pending flag, a
    spawn still under way leaves the handle and [spawn_pending]; a
    completed stop tears handle and server down, a stop still under way
    leaves [stop_pending]. *)
Definition spawned (sp : orm.Spawner) (srv : orm.Server) (u : orm.User) : orm.User :=
  orm.mkUser (orm.name u) (orm.admin u) (Some srv) (Some sp)
             false (orm.stop_pending u) (orm.last_activity u).

Definition spawning (sp : orm.Spawner) (u : orm.User) : orm.User :=
  orm.mkUser (orm.name u) (orm.admin u) (orm.server u) (Some sp)
             true (orm.stop_pending u) (orm.last_activity u).

Definition stopped (u : orm.User) : orm.User :=
  orm.mkUser (orm.name u) (orm.admin u) None None
             (orm.spawn_pending u) false (orm.last_activity u).

Definition stopping (u : orm.User) : orm.User :=
  orm.mkUser (orm.name u) (orm.admin u) (orm.server u) (orm.spawner u)
             (orm.spawn_pending u) true (orm.last_activity u).

(** Modelled from the spec: [spawn_single_user] of the base handler begins
    a spawn; when it returns the spawn has either completed or is still
    pending. *)
Definition spawn_single_user (self : Handler) (user : option UserRef) : M unit :=
  run do_call (SpawnSingleUser (default 0%nat user));
  match on_spawn self with
  | SpawnDone sp srv => update user (spawned sp srv)
  | SpawnSlow sp => update user (spawning sp)
  | SpawnRaises what => raise (PyException what)
  end.

(** Modelled from the spec: [stop_single_user] of the base handler begins
    a stop; when it returns the stop has either completed or is still
    pending. *)
Definition stop_single_user (self : Handler) (user : option UserRef) : M unit :=
  run do_call (StopSingleUser (default 0%nat user));
  match on_stop self with
  | StopDone => update user stopped
  | StopSlow => update user stopping
  | StopRaises what => raise (PyException what)
  end.

(** [write] and [set_status] of the web framework's request handler. *)
Definition write (chunk : json) : M unit := modify (with_written chunk).

Definition set_status (code : Z) : M unit := modify (with_status code).

(** Modelled from the spec: the session-cookie issuer's grant,
    [set_server_cookie] of the base handler. *)
Definition set_server_cookie (user : option UserRef) : M unit :=
  do u <- getattr user id;
  run do_call (SetServerCookie (default 0%nat user));
  modify (with_cookie u).

Definition log_warn : M unit := do_call LogWarn.
Definition log_error : M unit := do_call LogError.

(** Modelled from the spec: the [admin_only] decorator of [..utils]:
    allowed iff there is a caller and the caller is an admin, otherwise
    403. *)
Definition admin_only {A} (method : Handler -> A -> M unit) : Handler -> A -> M unit :=
  fun self args =>
    do current <- get_current_user self;
    match current with
    | None => raise (HTTPError 403 None)
    | Some current =>
        if negb (orm.admin current) then raise (HTTPError 403 None)
        else method self args
    end.

Fixpoint for_each {A} (l : list A) (f : A -> M unit) : M unit :=
  match l with
  | [] => ret tt
  | x :: l' => run f x; for_each l' f
  end.

(** ** BaseUserHandler.user_model *)

(** The model is a projection of the record; [user_model] reads the
    record [user] refers to and builds it. *)
Definition render_user (u : orm.User) : json :=
  let model : dict json :=
    [("name", JStr (orm.name u));
     ("admin", JBool (orm.admin u));
     ("server",
       if orm.running u
       then match orm.server u with
            | Some srv => JStr (orm.base_url srv)
            | None => JNull
            end
       else JNull);
     ("pending", JNull);
     ("last_activity", JStr (orm.last_activity u))] in
  let model :=
    if orm.spawn_pending u then dict_set model "pending" (JStr "spawn")
    else if orm.stop_pending u then dict_set model "pending" (JStr "stop")
    else model in
  JDict model.

Definition user_model (user : option UserRef) : M json :=
  do u <- getattr user id;
  ret (render_user u).

(** ** admin_or_self *)

Definition admin_or_self (method : Handler -> string -> M unit)
  : Handler -> string -> M unit :=
  fun self name =>
    do current <- get_current_user self;
    match current with
    | None => raise (HTTPError 403 None)
    | Some current =>
        if negb (String.eqb (orm.name current) name || orm.admin current)
        then raise (HTTPError 403 None)
        else
          do found <- find_user self name;
          if negb (is_not_none found)
          then raise (HTTPError 404 None)
          else method self name
    end.

(** ** UserListAPIHandler *)

Module UserListAPIHandler.

Fixpoint render_all (n : nat) (from : nat) : M (list json) :=
  match n with
  | O => ret []
  | S n' =>
      do m <- user_model (Some from);
      do ms <- render_all n' (S from);
      ret (m :: ms)
  end.

Definition get_body (self : Handler) (_ : unit) : M unit :=
  do n <- gets (fun st => length (session st));
  do data <- render_all n 0%nat;
  write (JList data).

Definition get : Handler -> unit -> M unit := admin_only get_body.

End UserListAPIHandler.

(** ** UserAPIHandler *)

Module UserAPIHandler.

Definition get_body (self : Handler) (name : string) : M unit :=
  do user <- find_user self name;
  do model <- user_model user;
  write model.

Definition get := admin_or_self get_body.

Definition post_body (self : Handler) (name : string) : M unit :=
  do data <- get_json_body self;
  do user <- find_user self name;
  if is_not_none user
  then raise (HTTPError 400 (Some (AlreadyExists name)))
  else
    do user <- user_from_username self name;
    run when (truthy data)
          (run lift (_check_user_model data);
           match data with
           | JDict d =>
               match dict_get d "admin" with
               | Some value =>
                   run setattr user "admin" value;
                   db_commit
               | None => ret tt
               end
           | _ => ret tt
           end);
    run try_except
          (authenticator_add_user self user)
          (fun _ =>
             run log_error;
             run db_delete user;
             run db_commit;
             raise (HTTPError 400 (Some (FailedToCreate name))));
    do model <- user_model user;
    run write model;
    set_status 201.

Definition post := admin_only post_body.

Definition delete_body (self : Handler) (name : string) : M unit :=
  do user <- find_user self name;
  if is_none user
  then raise (HTTPError 404 None)
  else
    do uname <- getattr user orm.name;
    do current <- get_current_user self;
    match current with
    | None => raise (PyException "AttributeError")
    | Some current =>
        if String.eqb uname (orm.name current)
        then raise (HTTPError 400 (Some CannotDeleteYourself))
        else
          do stopping <- getattr user orm.stop_pending;
          if stopping
          then raise (HTTPError 400 (Some (ServerStopping name)))
          else
            do spawner <- getattr user orm.spawner;
            run when (is_not_none spawner)
                  (run stop_single_user self user;
                   do stopping <- getattr user orm.stop_pending;
                   when stopping
                     (raise (HTTPError 400 (Some (ServerStopping name)))));
            run authenticator_delete_user self user;
            run db_delete user;
            run db_commit;
            set_status 204
    end.

Definition delete := admin_only delete_body.

Definition patch_body (self : Handler) (name : string) : M unit :=
  do user <- find_user self name;
  if is_none user
  then raise (HTTPError 404 None)
  else
    do data <- get_json_body self;
    run lift (_check_user_model data);
    run match data with
        | JDict items => for_each items (fun kv => setattr user kv.1 kv.2)
        | _ => raise (PyException "AttributeError")
        end;
    run db_commit;
    do model <- user_model user;
    write model.

Definition patch := admin_only patch_body.

End UserAPIHandler.

(** ** UserServerAPIHandler *)

Module UserServerAPIHandler.

Definition post_body (self : Handler) (name : string) : M unit :=
  do user <- find_user self name;
  do spawner <- getattr user orm.spawner;
  run when (is_not_none spawner)
        (do state <- spawner_poll user spawner;
         match state with
         | None => raise (HTTPError 400 (Some (AlreadyRunning name)))
         | Some _ => ret tt
         end);
  run spawn_single_user self user;
  do pending <- getattr user orm.spawn_pending;
  set_status (if pending then 202 else 201).

Definition post := admin_or_self post_body.

Definition delete_body (self : Handler) (name : string) : M unit :=
  do user <- find_user self name;
  do stopping <- getattr user orm.stop_pending;
  if stopping
  then set_status 202
  else
    do running <- getattr user orm.running;
    if negb running
    then raise (HTTPError 400 (Some (IsNotRunning name)))
    else
      do spawner <- getattr user orm.spawner;
      do status <- spawner_poll user spawner;
      match status with
      | Some _ => raise (HTTPError 400 (Some (IsNotRunning name)))
      | None =>
          run stop_single_user self user;
          do stopping <- getattr user orm.stop_pending;
          set_status (if stopping then 202 else 204)
      end.

Definition delete := admin_or_self delete_body.

End UserServerAPIHandler.

(** ** UserAdminAccessAPIHandler *)

Module UserAdminAccessAPIHandler.

Definition post_body (self : Handler) (name : string) : M unit :=
  do current <- get_current_user self;
  run match current with
      | None => raise (PyException "AttributeError")
      | Some _ => log_warn
      end;
  if negb (default false (admin_access self))
  then raise (HTTPError 403 (Some AdminAccessDisabled))
  else
    do user <- find_user self name;
    if is_none user
    then raise (HTTPError 404 None)
    else
      do running <- getattr user orm.running;
      if negb running
      then raise (HTTPError 400 (Some (IsNotRunning name)))
      else set_server_cookie user.

Definition post := admin_only post_body.

End UserAdminAccessAPIHandler.

(** ** Vocabulary of the properties *)

(** The first record of the session carrying [name], with its position. *)
Definition lookup_name (name : string) (users : list orm.User) : option (nat * orm.User) :=
  list_find (fun u => orm.name u = name) users.

(** The operations behind the self-or-admin gate. *)
Inductive self_or_admin_op : Type := GetUser | SpawnServer | StopServer.

Definition gated (op : self_or_admin_op) : Handler -> string -> M unit :=
  match op with
  | GetUser => UserAPIHandler.get
  | SpawnServer => UserServerAPIHandler.post
  | StopServer => UserServerAPIHandler.delete
  end.

Definition body (op : self_or_admin_op) : Handler -> string -> M unit :=
  match op with
  | GetUser => UserAPIHandler.get_body
  | SpawnServer => UserServerAPIHandler.post_body
  | StopServer => UserServerAPIHandler.delete_body
  end.

(** The state once SpawnServer has polled the handle of [u], if any. *)
Definition after_poll (u : orm.User) (r : nat) (st : state) : state :=
  match orm.spawner u with
  | Some _ => record_call (SpawnerPoll r) st
  | None => st
  end.

(** The state once DeleteUser has stopped the server of [u], if it has a
    handle and the stop completed. *)
Definition after_stop (u : orm.User) (r : nat) (st : state) : state :=
  match orm.spawner u with
  | Some _ => with_session (alter stopped r) (record_call (StopSingleUser r) st)
  | None => st
  end.

(** The state once the authenticator has been told and the record at [r]
    has been removed and the removal committed. *)
Definition removed (r : nat) (st : state) : state :=
  with_status 204
    (record_call DbCommit
       (commit_session
          (record_call (DbDelete r)
             (with_session (delete r)
                (record_call (AuthDeleteUser r) st))))).

(** The validation contract in the words of the design document: the
    payload is a mapping, its keys are among [name] and [admin], and each
    value has the declared type of its key. *)
Definition is_mapping (model : json) : Prop := exists d, model = JDict d.

Definition allowed_key (k : string) : Prop := k = "name" \/ k = "admin".

Definition well_typed (kv : string * json) : Prop :=
  (kv.1 = "name" -> exists s, kv.2 = JStr s)
  /\ (kv.1 = "admin" -> exists b, kv.2 = JBool b).

(** The state once [user_from_username] has created and committed the
    record for a new [name]. *)
Definition created (name : string) (st : state) : state :=
  record_call DbCommit
    (commit_session
       (record_call (DbAdd (length (session st)))
          (with_session (fun l => (l ++ [orm.new name])%list) st))).

(** The names of the records of the session, in order. *)
Definition names (st : state) : list string := orm.name <$> session st.

(** A computation that leaves the names of all records as they are; more
    generally one that maintains a property of the list of names. *)
Definition preserves {A} (I : list string -> Prop) (m : M A) : Prop :=
  forall st, I (names st) -> I (names (m st).2).

Definition keeps_names {A} (m : M A) : Prop :=
  forall st, names (m st).2 = names st.

(** The name a record ends up with once the items of an update payload
    have been applied to it in order. *)
Definition renamed (items : dict json) (n : string) : string :=
  fold_left (fun n kv =>
               match kv.2 with
               | JStr s => if String.eqb kv.1 "name" then s else n
               | _ => n
               end) items n.

(** [model[key]] on a rendered model. *)
Definition model_get (model : json) (key : string) : option json :=
  match model with
  | JDict d => dict_get d key
  | _ => None
  end.

Definition model_keys (model : json) : list string :=
  match model with
  | JDict d => dict_keys d
  | _ => []
  end.

(** The admin flag a CreateUser payload asks for, if any. *)
Definition payload_admin (data : json) : option bool :=
  match data with
  | JDict d =>
      match dict_get d "admin" with
      | Some (JBool b) => Some b
      | _ => None
      end
  | _ => None
  end.

(** The record CreateUser leaves in the store for [name] and payload
    [data]. *)
Definition created_record (name : string) (data : json) : orm.User :=
  match payload_admin data with
  | Some b => orm.set_admin b (orm.new name)
  | None => orm.new name
  end.

(** What the loop of [patch] makes of a record: each item of the payload
    applied in order, as [setattr] applies it. *)
Definition apply_item (u : orm.User) (kv : string * json) : orm.User :=
  match kv.2 with
  | JStr s => if String.eqb kv.1 "name" then orm.set_name s u else u
  | JBool b => if String.eqb kv.1 "admin" then orm.set_admin b u else u
  | _ => u
  end.

Definition apply_items (items : dict json) (u : orm.User) : orm.User :=
  fold_left apply_item items u.

(** The state once UpdateUser has replaced the record at [r] by [u'],
    committed and written the model. *)
Definition updated (r : nat) (u' : orm.User) (st : state) : state :=
  with_written (render_user u')
    (record_call DbCommit
       (commit_session (with_session (fun l => <[r:=u']> l) st))).

(** A computation that leaves an observable [p] of the state as it is. *)
Definition keeps_obs {X A} (p : state -> X) (m : M A) : Prop :=
  forall st, p (m st).2 = p st.

(** ** Sample data *)

Module Sample.

Definition root : orm.User := orm.set_admin true (orm.new "root").
Definition alice : orm.User := orm.new "alice".
Definition bob : orm.User := orm.new "bob".

Definition live : orm.Spawner := orm.mkSpawner None.
Definition exited : orm.Spawner := orm.mkSpawner (Some 0).
Definition srv : orm.Server := orm.mkServer "/user/alice".

(** alice with a running server whose process polls as [sp] does. *)
Definition alice_running (sp : orm.Spawner) : orm.User :=
  orm.mkUser "alice" false (Some srv) (Some sp) false false
             "1970-01-01T00:00:00".

Definition alice_stopping : orm.User :=
  orm.mkUser "alice" false (Some srv) (Some live) false true
             "1970-01-01T00:00:00".

(** A store in which everything is committed and a fresh response. *)
Definition store (users : list orm.User) : state :=
  mkState users users [] 200 [] None.

(** A request by [who] with body [data]; the collaborators succeed and
    complete at once unless overridden. *)
Definition request (who : option orm.User) (data : json) : Handler :=
  mkHandler who data None None None (SpawnDone live srv) StopDone.

Definition slow (self : Handler) : Handler :=
  mkHandler (current_user self) (json_body self) (admin_access self)
            (add_user_raises self) (delete_user_raises self)
            (SpawnSlow live) StopSlow.

Definition add_user_fails (self : Handler) : Handler :=
  mkHandler (current_user self) (json_body self) (admin_access self)
            (Some "LookupError") (delete_user_raises self)
            (on_spawn self) (on_stop self).

End Sample.

(** * Properties *)

(** ** Looking a user up *)


Lemma find_user_run self name st :
  find_user self name st = (Ok (fst <$> lookup_name name (session st)), st).
Proof. reflexivity. Qed.

Lemma lookup_name_absent name (users : list orm.User) :
  (forall u, u ∈ users -> orm.name u <> name) -> lookup_name name users = None.
Proof.
  intros Hno. apply list_find_None, Forall_forall. exact Hno.
Qed.

Lemma lookup_name_present name (users : list orm.User) u :
  u ∈ users -> orm.name u = name ->
  exists r u', lookup_name name users = Some (r, u')
               /\ users !! r = Some u' /\ orm.name u' = name.
Proof.
  intros Hin Hname.
  destruct (list_find_elem_of (fun u => orm.name u = name) users u Hin Hname)
    as [[r u'] Hfind].
  exists r, u'. split; [exact Hfind|].
  apply list_find_Some in Hfind. tauto.
Qed.

Lemma lookup_name_Some name (users : list orm.User) r u :
  lookup_name name users = Some (r, u) ->
  users !! r = Some u /\ orm.name u = name.
Proof. intros H. apply list_find_Some in H. tauto. Qed.

(** ** Symbolic execution of handler methods *)

Lemma snoc_lookup {A} (l : list A) (x : A) : (l ++ [x]) !! length l = Some x.
Proof. apply list_lookup_middle. reflexivity. Qed.

Lemma snoc_alter {A} (f : A -> A) (l : list A) (x : A) :
  alter f (length l) (l ++ [x]) = l ++ [f x].
Proof.
  rewrite <- (Nat.add_0_r (length l)) at 1. rewrite alter_app_r. reflexivity.
Qed.

Lemma snoc_delete {A} (l : list A) (x : A) : delete (length l) (l ++ [x]) = l.
Proof. rewrite delete_middle. apply app_nil_r. Qed.

Ltac munfold :=
  cbv beta iota delta
    [bind ret raise gets modify lift when try_except do_call
     get_current_user get_json_body log_warn log_error write set_status
     find_user getattr update db_commit db_delete set_server_cookie
     authenticator_add_user authenticator_delete_user spawner_poll
     spawn_single_user stop_single_user user_from_username user_model
     admin_only admin_or_self].

Ltac mstep :=
  cbv beta iota;
  cbn [session committed calls status written server_cookie
       record_call with_session commit_session with_status with_written
       with_cookie negb orb andb fst snd fmap option_fmap option_map
       default is_none is_not_none id
       orm.name orm.admin orm.server orm.spawner orm.spawn_pending
       orm.stop_pending orm.last_activity orm.set_name orm.set_admin orm.new
       spawned spawning stopped stopping];
  repeat match goal with
         | |- context [list_find (fun u => orm.name u = ?n) ?l] =>
             change (list_find (fun u => orm.name u = n) l)
               with (lookup_name n l)
         end.

Ltac mexec :=
  repeat progress
    (mstep;
     rewrite ?list_lookup_alter_eq, ?snoc_alter, ?snoc_lookup, ?snoc_delete,
       ?String.eqb_refl;
     repeat match goal with
            | H : ?l = _ |- _ => progress rewrite H
            end).

(** ** The self-or-admin gate *)


Lemma gated_unfold op : gated op = admin_or_self (body op).
Proof. destruct op; reflexivity. Qed.

Lemma admin_or_self_anonymous method self name st :
  current_user self = None ->
  admin_or_self method self name st = (Raise Forbidden, st).
Proof.
  intros Hc. unfold admin_or_self, bind, get_current_user, ret.
  rewrite Hc. reflexivity.
Qed.

Lemma admin_or_self_other method self name st c :
  current_user self = Some c ->
  orm.name c <> name -> orm.admin c = false ->
  admin_or_self method self name st = (Raise Forbidden, st).
Proof.
  intros Hc Hname Hadmin. unfold admin_or_self, bind, get_current_user, ret.
  rewrite Hc, Hadmin.
  destruct (String.eqb_spec (orm.name c) name) as [Heq|_]; [contradiction|].
  reflexivity.
Qed.

Lemma admin_or_self_allowed method self name st c :
  current_user self = Some c ->
  orm.name c = name \/ orm.admin c = true ->
  admin_or_self method self name st =
    match lookup_name name (session st) with
    | None => (Raise NotFound, st)
    | Some _ => method self name st
    end.
Proof.
  intros Hc Hallowed. unfold admin_or_self, bind, get_current_user, ret.
  rewrite Hc. cbv beta iota.
  assert (String.eqb (orm.name c) name || orm.admin c = true) as ->.
  { destruct Hallowed as [<- | ->].
    - rewrite String.eqb_refl. reflexivity.
    - apply orb_true_r. }
  cbn [negb]. cbv beta iota. rewrite find_user_run.
  destruct (lookup_name name (session st)); reflexivity.
Qed.

(** C1. Every operation behind the self-or-admin gate (GetUser,
    SpawnServer, StopServer): with no authenticated caller the request is
    refused with Forbidden; a caller that is neither the target nor an
    admin is refused with Forbidden; an authorized caller naming a user
    that no record of the session carries gets NotFound, which is a
    different error from Forbidden; in every other case the gated
    operation is exactly its body. Refusals leave the state untouched. *)
Theorem admin_or_self_gate (op : self_or_admin_op) (self : Handler)
    (name : string) (st : state) :
  (current_user self = None ->
     gated op self name st = (Raise Forbidden, st))
  /\ (forall c, current_user self = Some c ->
        orm.name c <> name -> orm.admin c = false ->
        gated op self name st = (Raise Forbidden, st))
  /\ (forall c, current_user self = Some c ->
        orm.name c = name \/ orm.admin c = true ->
        (forall u, u ∈ session st -> orm.name u <> name) ->
        gated op self name st = (Raise NotFound, st))
  /\ (forall c u, current_user self = Some c ->
        orm.name c = name \/ orm.admin c = true ->
        u ∈ session st -> orm.name u = name ->
        gated op self name st = body op self name st)
  /\ NotFound <> Forbidden
  /\ http_code NotFound = 404 /\ http_code Forbidden = 403.
Proof.
  rewrite gated_unfold. repeat split.
  - apply admin_or_self_anonymous.
  - intros c. apply admin_or_self_other.
  - intros c Hc Hallowed Habsent.
    rewrite (admin_or_self_allowed _ _ _ _ c Hc Hallowed).
    rewrite (lookup_name_absent _ _ Habsent). reflexivity.
  - intros c u Hc Hallowed Hin Hname.
    rewrite (admin_or_self_allowed _ _ _ _ c Hc Hallowed).
    destruct (lookup_name_present _ _ _ Hin Hname) as (r & u' & -> & _).
    reflexivity.
  - discriminate.
Qed.


Lemma admin_or_self_gate_witness :
  gated GetUser (Sample.request None JNull) "alice"
        (Sample.store [Sample.root; Sample.alice])
    = (Raise Forbidden, Sample.store [Sample.root; Sample.alice])
  /\ gated SpawnServer (Sample.request (Some Sample.bob) JNull) "alice"
           (Sample.store [Sample.root; Sample.alice])
    = (Raise Forbidden, Sample.store [Sample.root; Sample.alice])
  /\ gated StopServer (Sample.request (Some Sample.root) JNull) "carol"
           (Sample.store [Sample.root; Sample.alice])
    = (Raise NotFound, Sample.store [Sample.root; Sample.alice])
  /\ gated GetUser (Sample.request (Some Sample.alice) JNull) "alice"
           (Sample.store [Sample.root; Sample.alice])
    = body GetUser (Sample.request (Some Sample.alice) JNull) "alice"
           (Sample.store [Sample.root; Sample.alice]).
Proof.
  refine (conj _ (conj _ (conj _ _))).
  - apply (admin_or_self_gate GetUser (Sample.request None JNull) "alice").
    reflexivity.
  - apply (admin_or_self_gate SpawnServer
             (Sample.request (Some Sample.bob) JNull) "alice")
      with (c := Sample.bob); [reflexivity | discriminate | reflexivity].
  - apply (admin_or_self_gate StopServer
             (Sample.request (Some Sample.root) JNull) "carol")
      with (c := Sample.root); [reflexivity | right; reflexivity |].
    intros u Hu.
    repeat (apply elem_of_cons in Hu as [-> | Hu]; [discriminate|]).
    apply elem_of_nil in Hu. contradiction.
  - apply (admin_or_self_gate GetUser
             (Sample.request (Some Sample.alice) JNull) "alice")
      with (c := Sample.alice) (u := Sample.alice);
      [reflexivity | left; reflexivity | | reflexivity].
    apply list_elem_of_lookup. exists 1%nat. reflexivity.
Defined.

(** ** GrantAdminAccess *)

(** C10. With the admin-access flag off (absent or false), GrantAdminAccess
    by any admin caller is refused with status 403 for every target name,
    whether or not a record of that name exists: the flag is tested before
    the target is looked up. On every failing path of the operation the
    server cookie is left as it was; the only thing a failing request may
    have done is log the warning. *)
Theorem grant_admin_access_failures (self : Handler) (name : string) (st : state) :
  (forall c, current_user self = Some c -> orm.admin c = true ->
     default false (admin_access self) = false ->
     UserAdminAccessAPIHandler.post self name st
       = (Raise FeatureDisabled, record_call LogWarn st))
  /\ http_code FeatureDisabled = http_code Forbidden
  /\ (forall e st',
        UserAdminAccessAPIHandler.post self name st = (Raise e, st') ->
        server_cookie st' = server_cookie st
        /\ (st' = st \/ st' = record_call LogWarn st)).
Proof.
  unfold UserAdminAccessAPIHandler.post, UserAdminAccessAPIHandler.post_body.
  munfold. split; [|split; [reflexivity|]].
  - intros c Hc Hadmin Hflag.
    rewrite Hc. mstep. rewrite Hadmin. mstep. rewrite Hflag. reflexivity.
  - intros e st'. destruct (current_user self) as [c|]; mstep.
    2: { intros [= <- <-]. auto. }
    destruct (orm.admin c); mstep.
    2: { intros [= <- <-]. auto. }
    destruct (default false (admin_access self)); mstep.
    2: { intros [= <- <-]. auto. }
    destruct (lookup_name name (session st)) as [[r u]|] eqn:Hl; mstep.
    2: { intros [= <- <-]. auto. }
    apply lookup_name_Some in Hl as [Hr _]. rewrite Hr. mstep.
    destruct (orm.running u); mstep.
    + rewrite Hr. mstep. discriminate.
    + intros [= <- <-]. auto.
Qed.

(** ** StopServer *)

(** C8. StopServer by an authorized caller on an existing target: when the
    target is already stop-pending the answer is 202 and nothing else
    happens (no poll, no stop call); when it is not running the request
    fails NotRunning; when the poll reports an exit code it fails
    NotRunning; otherwise the stop is begun, answered 202 if the stop is
    still pending when the call returns and 204 if it completed. *)
Theorem stop_server_outcomes (self : Handler) (name : string) (st : state)
    (c : orm.User) (r : nat) (u : orm.User) :
  current_user self = Some c ->
  orm.name c = name \/ orm.admin c = true ->
  lookup_name name (session st) = Some (r, u) ->
  (orm.stop_pending u = true ->
     UserServerAPIHandler.delete self name st = (Ok tt, with_status 202 st)
     /\ calls (with_status 202 st) = calls st
     /\ session (with_status 202 st) = session st)
  /\ (orm.stop_pending u = false -> orm.running u = false ->
        UserServerAPIHandler.delete self name st
          = (Raise (NotRunning name), st))
  /\ (forall sp code,
        orm.stop_pending u = false -> orm.running u = true ->
        orm.spawner u = Some sp -> orm.poll sp = Some code ->
        UserServerAPIHandler.delete self name st
          = (Raise (NotRunning name), record_call (SpawnerPoll r) st))
  /\ (forall sp,
        orm.stop_pending u = false -> orm.running u = true ->
        orm.spawner u = Some sp -> orm.poll sp = None ->
        (on_stop self = StopSlow ->
           UserServerAPIHandler.delete self name st
             = (Ok tt,
                with_status 202
                  (with_session (alter stopping r)
                     (record_call (StopSingleUser r)
                        (record_call (SpawnerPoll r) st)))))
        /\ (on_stop self = StopDone ->
              UserServerAPIHandler.delete self name st
                = (Ok tt,
                   with_status 204
                     (with_session (alter stopped r)
                        (record_call (StopSingleUser r)
                           (record_call (SpawnerPoll r) st)))))).
Proof.
  intros Hc Hallowed Hl.
  unfold UserServerAPIHandler.delete.
  rewrite (admin_or_self_allowed _ _ _ _ c Hc Hallowed), Hl.
  apply lookup_name_Some in Hl as Hr. destruct Hr as [Hr _].
  unfold UserServerAPIHandler.delete_body. munfold.
  split; [|split; [|split]].
  - intros Hstop. mexec. auto.
  - intros Hstop Hrun. mexec. reflexivity.
  - intros sp code Hstop Hrun Hsp Hpoll. mexec. reflexivity.
  - intros sp Hstop Hrun Hsp Hpoll.
    split; intros Hout; mexec; reflexivity.
Qed.

(** ** SpawnServer *)

Lemma spawn_alive_conflict self name st c r u sp :
  current_user self = Some c ->
  orm.name c = name \/ orm.admin c = true ->
  lookup_name name (session st) = Some (r, u) ->
  orm.spawner u = Some sp -> orm.poll sp = None ->
  UserServerAPIHandler.post self name st
    = (Raise (Conflict (AlreadyRunning name)), record_call (SpawnerPoll r) st).
Proof.
  intros Hc Hallowed Hl Hsp Hpoll.
  unfold UserServerAPIHandler.post.
  rewrite (admin_or_self_allowed _ _ _ _ c Hc Hallowed), Hl.
  apply lookup_name_Some in Hl as Hr. destruct Hr as [Hr _].
  unfold UserServerAPIHandler.post_body. munfold. mexec. reflexivity.
Qed.

Lemma spawn_fresh self name st c r u :
  current_user self = Some c ->
  orm.name c = name \/ orm.admin c = true ->
  lookup_name name (session st) = Some (r, u) ->
  orm.spawner u = None
  \/ (exists sp code, orm.spawner u = Some sp /\ orm.poll sp = Some code) ->
  UserServerAPIHandler.post self name st =
    let st1 := record_call (SpawnSingleUser r) (after_poll u r st) in
    match on_spawn self with
    | SpawnDone sp' srv =>
        (Ok tt, with_status 201 (with_session (alter (spawned sp' srv) r) st1))
    | SpawnSlow sp' =>
        (Ok tt, with_status 202 (with_session (alter (spawning sp') r) st1))
    | SpawnRaises what => (Raise (PyException what), st1)
    end.
Proof.
  intros Hc Hallowed Hl Hfresh.
  unfold UserServerAPIHandler.post.
  rewrite (admin_or_self_allowed _ _ _ _ c Hc Hallowed), Hl.
  apply lookup_name_Some in Hl as Hr. destruct Hr as [Hr _].
  unfold UserServerAPIHandler.post_body, after_poll. munfold.
  destruct Hfresh as [Hsp | (sp & code & Hsp & Hpoll)];
    destruct (on_spawn self) eqn:Hout; mexec;
    reflexivity.
Qed.

(** C6. SpawnServer by an authorized caller on an existing target: a
    handle whose poll answers null (process alive) makes the request fail
    Conflict, already running, and no spawn is begun; a handle whose poll
    answers an exit code, like no handle at all, lets a fresh spawn begin;
    a spawn that is still pending when the call returns is answered 202
    and the record is spawn-pending, a spawn that completed is answered
    201 and the record is running. *)
Theorem spawn_server_outcomes (self : Handler) (name : string) (st : state)
    (c : orm.User) (r : nat) (u : orm.User) :
  current_user self = Some c ->
  orm.name c = name \/ orm.admin c = true ->
  lookup_name name (session st) = Some (r, u) ->
  (forall sp, orm.spawner u = Some sp -> orm.poll sp = None ->
     UserServerAPIHandler.post self name st
       = (Raise (Conflict (AlreadyRunning name)),
          record_call (SpawnerPoll r) st)
     /\ calls (record_call (SpawnerPoll r) st) = (calls st ++ [SpawnerPoll r])%list
     /\ session (record_call (SpawnerPoll r) st) = session st)
  /\ (orm.spawner u = None
      \/ (exists sp code, orm.spawner u = Some sp /\ orm.poll sp = Some code) ->
      let st1 := record_call (SpawnSingleUser r) (after_poll u r st) in
      (forall sp', on_spawn self = SpawnSlow sp' ->
         UserServerAPIHandler.post self name st
           = (Ok tt,
              with_status 202 (with_session (alter (spawning sp') r) st1))
         /\ orm.spawn_pending (spawning sp' u) = true)
      /\ (forall sp' srv, on_spawn self = SpawnDone sp' srv ->
            UserServerAPIHandler.post self name st
              = (Ok tt,
                 with_status 201
                   (with_session (alter (spawned sp' srv) r) st1))
            /\ orm.spawn_pending (spawned sp' srv u) = false
            /\ orm.running (spawned sp' srv u) = true)).
Proof.
  intros Hc Hallowed Hl. split.
  - intros sp Hsp Hpoll. split.
    + exact (spawn_alive_conflict _ _ _ _ _ _ _ Hc Hallowed Hl Hsp Hpoll).
    + split; reflexivity.
  - intros Hfresh st1.
    pose proof (spawn_fresh _ _ _ _ _ _ Hc Hallowed Hl Hfresh) as Hrun.
    cbv zeta in Hrun. fold st1 in Hrun.
    split.
    + intros sp' Hout. rewrite Hout in Hrun. split; [exact Hrun | reflexivity].
    + intros sp' srv Hout. rewrite Hout in Hrun. repeat split. exact Hrun.
Qed.

(** A handle whose poll answers an exit code does not make SpawnServer
    fail Conflict: the spawn goes ahead and is answered 201.  It is the
    handle whose poll answers null that is refused. *)
Lemma spawn_exited_poll_accepted :
  orm.spawner (Sample.alice_running Sample.exited) = Some Sample.exited
  /\ orm.poll Sample.exited = Some 0
  /\ (UserServerAPIHandler.post
        (Sample.request (Some Sample.alice) JNull) "alice"
        (Sample.store [Sample.root; Sample.alice_running Sample.exited])).1
     = Ok tt
  /\ (UserServerAPIHandler.post
        (Sample.request (Some Sample.alice) JNull) "alice"
        (Sample.store [Sample.root; Sample.alice_running Sample.exited])).1
     <> Raise (Conflict (AlreadyRunning "alice"))
  /\ orm.poll Sample.live = None
  /\ (UserServerAPIHandler.post
        (Sample.request (Some Sample.alice) JNull) "alice"
        (Sample.store [Sample.root; Sample.alice_running Sample.live])).1
     = Raise (Conflict (AlreadyRunning "alice")).
Proof. repeat split. discriminate. Qed.

(** C7, amended. SpawnServer succeeds only if, at check time, the target
    has no spawner handle or the poll of its handle answers an exit code
    (the process is gone); when the handle exists and its poll answers
    null (the process is alive) the request of an authorized caller fails
    Conflict. *)
Theorem spawn_accepted_only_if_not_alive (self : Handler) (name : string)
    (st : state) :
  (forall st', UserServerAPIHandler.post self name st = (Ok tt, st') ->
     exists r u, lookup_name name (session st) = Some (r, u)
       /\ (orm.spawner u = None
           \/ exists sp code, orm.spawner u = Some sp
                              /\ orm.poll sp = Some code))
  /\ (forall c r u sp,
        current_user self = Some c ->
        orm.name c = name \/ orm.admin c = true ->
        lookup_name name (session st) = Some (r, u) ->
        orm.spawner u = Some sp -> orm.poll sp = None ->
        UserServerAPIHandler.post self name st
          = (Raise (Conflict (AlreadyRunning name)),
             record_call (SpawnerPoll r) st)).
Proof.
  split.
  - intros st' Hok.
    destruct (current_user self) as [c|] eqn:Hc.
    2: { unfold UserServerAPIHandler.post in Hok.
         rewrite (admin_or_self_anonymous _ _ _ _ Hc) in Hok. discriminate. }
    destruct (String.eqb (orm.name c) name || orm.admin c) eqn:Hallowed.
    2: { apply orb_false_elim in Hallowed as [Hname Hadmin].
         apply String.eqb_neq in Hname.
         unfold UserServerAPIHandler.post in Hok.
         rewrite (admin_or_self_other _ _ _ _ c Hc Hname Hadmin) in Hok.
         discriminate. }
    assert (orm.name c = name \/ orm.admin c = true) as Hallowed'.
    { apply orb_true_iff in Hallowed as [Hname | Hadmin]; [left | right; exact Hadmin].
      apply String.eqb_eq. exact Hname. }
    destruct (lookup_name name (session st)) as [[r u]|] eqn:Hl.
    2: { unfold UserServerAPIHandler.post in Hok.
         rewrite (admin_or_self_allowed _ _ _ _ c Hc Hallowed'), Hl in Hok.
         discriminate. }
    exists r, u. split; [reflexivity|].
    destruct (orm.spawner u) as [sp|] eqn:Hsp; [|left; reflexivity].
    destruct (orm.poll sp) as [code|] eqn:Hpoll; [right; eauto|].
    rewrite (spawn_alive_conflict _ _ _ _ _ _ _ Hc Hallowed' Hl Hsp Hpoll) in Hok.
    discriminate.
  - intros c r u sp. apply spawn_alive_conflict.
Qed.

Lemma spawn_accepted_only_if_not_alive_witness :
  (exists r u,
     lookup_name "alice"
       (session (Sample.store [Sample.root; Sample.alice_running Sample.exited]))
       = Some (r, u)
     /\ (orm.spawner u = None
         \/ exists sp code, orm.spawner u = Some sp /\ orm.poll sp = Some code))
  /\ UserServerAPIHandler.post
       (Sample.request (Some Sample.alice) JNull) "alice"
       (Sample.store [Sample.root; Sample.alice_running Sample.live])
     = (Raise (Conflict (AlreadyRunning "alice")),
        record_call (SpawnerPoll 1)
          (Sample.store [Sample.root; Sample.alice_running Sample.live])).
Proof.
  split.
  - eapply (spawn_accepted_only_if_not_alive
              (Sample.request (Some Sample.alice) JNull) "alice"
              (Sample.store [Sample.root; Sample.alice_running Sample.exited])).
    reflexivity.
  - eapply (spawn_accepted_only_if_not_alive
              (Sample.request (Some Sample.alice) JNull) "alice"
              (Sample.store [Sample.root; Sample.alice_running Sample.live]));
      [reflexivity | left; reflexivity | reflexivity | reflexivity | reflexivity].
Defined.

(** ** DeleteUser *)

(** A caller that is not an admin and names itself is refused Forbidden,
    not SelfDeletion. *)
Lemma delete_self_not_admin_forbidden :
  orm.name Sample.alice = "alice"
  /\ UserAPIHandler.delete (Sample.request (Some Sample.alice) JNull) "alice"
       (Sample.store [Sample.root; Sample.alice])
     = (Raise Forbidden, Sample.store [Sample.root; Sample.alice])
  /\ Forbidden <> SelfDeletion.
Proof. repeat split. discriminate. Qed.

(** C5, amended. DeleteUser by a caller that is not an admin is refused
    Forbidden. By an admin caller, on an existing target: it fails
    SelfDeletion whenever the name is the caller's own; otherwise it fails
    ServerBusy when the target is stop-pending; otherwise, when the target
    has a spawner handle, the server is stopped first and the flag read
    again, and a stop still pending makes the request fail ServerBusy with
    the record kept and the authenticator not called; only when there is
    no handle, or the stop completed, is the authenticator called and the
    record removed and the removal committed. *)
Theorem delete_user_outcomes (self : Handler) (name : string) (st : state)
    (c : orm.User) :
  current_user self = Some c ->
  (orm.admin c = false ->
     UserAPIHandler.delete self name st = (Raise Forbidden, st))
  /\ (forall r u,
        orm.admin c = true ->
        lookup_name name (session st) = Some (r, u) ->
        (name = orm.name c ->
           UserAPIHandler.delete self name st = (Raise SelfDeletion, st))
        /\ (name <> orm.name c -> orm.stop_pending u = true ->
              UserAPIHandler.delete self name st
                = (Raise (ServerBusy name), st))
        /\ (forall sp,
              name <> orm.name c -> orm.stop_pending u = false ->
              orm.spawner u = Some sp -> on_stop self = StopSlow ->
              let st' := with_session (alter stopping r)
                           (record_call (StopSingleUser r) st) in
              UserAPIHandler.delete self name st
                = (Raise (ServerBusy name), st')
              /\ session st' !! r = Some (stopping u)
              /\ calls st' = (calls st ++ [StopSingleUser r])%list)
        /\ (name <> orm.name c -> orm.stop_pending u = false ->
            orm.spawner u = None \/ on_stop self = StopDone ->
            delete_user_raises self = None ->
            UserAPIHandler.delete self name st
              = (Ok tt, removed r (after_stop u r st))
            /\ session (removed r (after_stop u r st))
               = delete r (session (after_stop u r st))
            /\ committed (removed r (after_stop u r st))
               = session (removed r (after_stop u r st)))).
Proof.
  intros Hc. unfold UserAPIHandler.delete. split.
  - intros Hadmin. munfold. mexec. reflexivity.
  - intros r u Hadmin Hl.
    apply lookup_name_Some in Hl as Hr. destruct Hr as [Hr Hname].
    unfold UserAPIHandler.delete_body, removed, after_stop. munfold.
    split; [|split; [|split]].
    + intros ->. mexec. reflexivity.
    + intros Hother Hstop. apply String.eqb_neq in Hother.
      mexec. reflexivity.
    + intros sp Hother Hstop Hsp Hout. cbv zeta.
      apply String.eqb_neq in Hother. mexec. auto.
    + intros Hother Hstop Hgo Hauth.
      apply String.eqb_neq in Hother. mexec.
      destruct (orm.spawner u) as [sp|] eqn:Hsp.
      * destruct Hgo as [Hgo | Hout]; [discriminate|].
        mexec. auto.
      * mexec. auto.
Qed.

Lemma delete_user_outcomes_witness :
  UserAPIHandler.delete (Sample.request (Some Sample.root) JNull) "root"
    (Sample.store [Sample.root; Sample.alice])
  = (Raise SelfDeletion, Sample.store [Sample.root; Sample.alice])
  /\ UserAPIHandler.delete (Sample.request (Some Sample.root) JNull) "alice"
       (Sample.store [Sample.root; Sample.alice_stopping])
     = (Raise (ServerBusy "alice"),
        Sample.store [Sample.root; Sample.alice_stopping])
  /\ UserAPIHandler.delete
       (Sample.slow (Sample.request (Some Sample.root) JNull)) "alice"
       (Sample.store [Sample.root; Sample.alice_running Sample.live])
     = (Raise (ServerBusy "alice"),
        with_session (alter stopping 1%nat)
          (record_call (StopSingleUser 1)
             (Sample.store [Sample.root; Sample.alice_running Sample.live])))
  /\ UserAPIHandler.delete (Sample.request (Some Sample.root) JNull) "alice"
       (Sample.store [Sample.root; Sample.alice_running Sample.live])
     = (Ok tt,
        removed 1
          (after_stop (Sample.alice_running Sample.live) 1
             (Sample.store [Sample.root; Sample.alice_running Sample.live]))).
Proof.
  refine (conj _ (conj _ (conj _ _))).
  - destruct (delete_user_outcomes
                (Sample.request (Some Sample.root) JNull) "root"
                (Sample.store [Sample.root; Sample.alice])
                Sample.root eq_refl) as [_ H].
    destruct (H 0%nat Sample.root eq_refl eq_refl) as (Hself & _).
    exact (Hself eq_refl).
  - destruct (delete_user_outcomes
                (Sample.request (Some Sample.root) JNull) "alice"
                (Sample.store [Sample.root; Sample.alice_stopping])
                Sample.root eq_refl) as [_ H].
    destruct (H 1%nat Sample.alice_stopping eq_refl eq_refl)
      as (_ & Hbusy & _).
    apply Hbusy; [discriminate | reflexivity].
  - destruct (delete_user_outcomes
                (Sample.slow (Sample.request (Some Sample.root) JNull)) "alice"
                (Sample.store [Sample.root; Sample.alice_running Sample.live])
                Sample.root eq_refl) as [_ H].
    destruct (H 1%nat (Sample.alice_running Sample.live) eq_refl eq_refl)
      as (_ & _ & Hslow & _).
    apply (Hslow Sample.live); [discriminate | reflexivity ..].
  - destruct (delete_user_outcomes
                (Sample.request (Some Sample.root) JNull) "alice"
                (Sample.store [Sample.root; Sample.alice_running Sample.live])
                Sample.root eq_refl) as [_ H].
    destruct (H 1%nat (Sample.alice_running Sample.live) eq_refl eq_refl)
      as (_ & _ & _ & Hgo).
    apply Hgo; [discriminate | reflexivity | right; reflexivity | reflexivity].
Defined.

(** ** Validation of user models *)

Lemma allowed_key_types k :
  allowed_key k <-> exists t, dict_get _model_types k = Some t.
Proof.
  unfold allowed_key. cbn [_model_types dict_get]. split.
  - intros [-> | ->]; cbn; eauto.
  - intros [t Ht].
    destruct (String.eqb_spec "name" k) as [<- | _]; [left; reflexivity|].
    destruct (String.eqb_spec "admin" k) as [<- | _]; [right; reflexivity|].
    discriminate.
Qed.

Lemma issubset_allowed (keys : list string) :
  issubset keys (dict_keys _model_types) = true <-> Forall allowed_key keys.
Proof.
  unfold issubset. rewrite forallb_forall, Forall_forall.
  split; intros H k Hk.
  - apply list_elem_of_In in Hk. specialize (H k Hk).
    cbn in H. unfold allowed_key.
    destruct (String.eqb_spec k "name") as [Hn | _]; [left; exact Hn|].
    destruct (String.eqb_spec k "admin") as [Ha | _]; [right; exact Ha|].
    discriminate.
  - apply list_elem_of_In in Hk. destruct (H k Hk) as [-> | ->]; reflexivity.
Qed.

Lemma isinstance_well_typed k v t :
  dict_get _model_types k = Some t ->
  isinstance v t = true <-> well_typed (k, v).
Proof.
  unfold well_typed. cbn [_model_types dict_get fst snd].
  destruct (String.eqb_spec "name" k) as [<- | Hn].
  - intros [= <-]. split.
    + intros Hi. split; [|discriminate].
      destruct v; try discriminate. eauto.
    + intros [Hs _]. destruct (Hs eq_refl) as [s ->]. reflexivity.
  - destruct (String.eqb_spec "admin" k) as [<- | Ha]; [|discriminate].
    intros [= <-]. split.
    + intros Hi. split; [discriminate|].
      destruct v; try discriminate. eauto.
    + intros [_ Hb]. destruct (Hb eq_refl) as [b ->]. reflexivity.
Qed.

Lemma check_items_ok (d : dict json) :
  Forall allowed_key (dict_keys d) ->
  check_items d = Ok tt <-> Forall well_typed d.
Proof.
  induction d as [|[k v] d IH]; intros Hkeys.
  - split; [constructor | reflexivity].
  - unfold dict_keys in Hkeys. rewrite fmap_cons in Hkeys. cbn [fst] in Hkeys.
    apply Forall_cons in Hkeys as [Hk Hkeys].
    apply allowed_key_types in Hk as [t Ht].
    cbn [check_items]. rewrite Ht, Forall_cons.
    rewrite <- (isinstance_well_typed k v t Ht), <- (IH Hkeys).
    destruct (isinstance v t); cbn [negb]; split; try tauto.
    + intros [=].
    + intros [[=] _].
Qed.

Lemma check_items_mismatch (d : dict json) :
  Forall allowed_key (dict_keys d) ->
  ~ Forall well_typed d ->
  exists k t v, (k, v) ∈ d /\ ~ well_typed (k, v)
                /\ dict_get _model_types k = Some t
                /\ check_items d = Raise (TypeMismatch k t (type_of v)).
Proof.
  induction d as [|[k v] d IH]; intros Hkeys Hbad.
  - exfalso. apply Hbad. constructor.
  - unfold dict_keys in Hkeys. rewrite fmap_cons in Hkeys. cbn [fst] in Hkeys.
    apply Forall_cons in Hkeys as [Hk Hkeys].
    apply allowed_key_types in Hk as [t Ht].
    cbn [check_items]. rewrite Ht.
    destruct (isinstance v t) eqn:Hi; cbn [negb].
    + destruct IH as (k' & t' & v' & Hin & Hwt & Ht' & Hc); [exact Hkeys | |].
      { intros Hall. apply Hbad. constructor; [|exact Hall].
        apply (isinstance_well_typed k v t Ht). exact Hi. }
      exists k', t', v'. repeat split; try assumption.
      apply elem_of_cons. right. exact Hin.
    + exists k, t, v. repeat split; try assumption.
      * apply elem_of_cons. left. reflexivity.
      * intros Hwt. apply (isinstance_well_typed k v t Ht) in Hwt. congruence.
Qed.

Lemma check_user_model_mapping (model : json) :
  _check_user_model model <> Raise (InvalidPayload model) -> is_mapping model.
Proof.
  destruct model; cbn; try congruence. intros _. eexists. reflexivity.
Qed.

(** What [_check_user_model] answers, case by case. *)
Lemma check_user_model_cases (model : json) :
  (~ is_mapping model ->
     _check_user_model model = Raise (InvalidPayload model))
  /\ (forall d, model = JDict d ->
        ~ Forall allowed_key (dict_keys d) ->
        _check_user_model model = Raise (InvalidKeys model))
  /\ (forall d, model = JDict d ->
        Forall allowed_key (dict_keys d) -> ~ Forall well_typed d ->
        exists k t v, (k, v) ∈ d /\ ~ well_typed (k, v)
          /\ dict_get _model_types k = Some t
          /\ _check_user_model model = Raise (TypeMismatch k t (type_of v)))
  /\ (forall d, model = JDict d ->
        Forall allowed_key (dict_keys d) -> Forall well_typed d ->
        _check_user_model model = Ok tt).
Proof.
  split; [|split; [|split]].
  - intros Hno. destruct model; try reflexivity.
    exfalso. apply Hno. eexists. reflexivity.
  - intros d -> Hkeys. cbn [_check_user_model].
    destruct (issubset (dict_keys d) (dict_keys _model_types)) eqn:Hs;
      [|reflexivity].
    apply issubset_allowed in Hs. contradiction.
  - intros d -> Hkeys Hbad. cbn [_check_user_model].
    apply issubset_allowed in Hkeys as Hs. rewrite Hs. cbn [negb].
    apply check_items_mismatch; assumption.
  - intros d -> Hkeys Hgood. cbn [_check_user_model].
    apply issubset_allowed in Hkeys as Hs. rewrite Hs. cbn [negb].
    apply check_items_ok; assumption.
Qed.

Lemma check_user_model_ok (model : json) :
  _check_user_model model = Ok tt ->
  exists d, model = JDict d /\ Forall allowed_key (dict_keys d)
            /\ Forall well_typed d.
Proof.
  destruct model; try discriminate. cbn [_check_user_model].
  destruct (issubset (dict_keys kvs) (dict_keys _model_types)) eqn:Hs;
    [|discriminate].
  apply issubset_allowed in Hs. cbn [negb]. intros Hc.
  exists kvs. repeat split; [exact Hs|]. apply check_items_ok; assumption.
Qed.

Lemma dict_get_elem_of {V} (d : dict V) k v :
  dict_get d k = Some v -> (k, v) ∈ d.
Proof.
  induction d as [|[k' v'] d IH]; [discriminate|]. cbn [dict_get].
  destruct (String.eqb_spec k' k) as [-> | _].
  - intros [= ->]. apply elem_of_cons. left. reflexivity.
  - intros H. apply elem_of_cons. right. exact (IH H).
Qed.

Lemma checked_admin_is_bool (d : dict json) v :
  _check_user_model (JDict d) = Ok tt ->
  dict_get d "admin" = Some v -> exists b, v = JBool b.
Proof.
  intros Hc Hg. apply check_user_model_ok in Hc as (d' & [= <-] & _ & Hwt).
  apply dict_get_elem_of in Hg.
  rewrite Forall_forall in Hwt. destruct (Hwt _ Hg) as [_ Hb]. exact (Hb eq_refl).
Qed.

(** ** CreateUser *)

(** The first half of [post]: conflict check and creation of the record. *)
Lemma post_creates self name st c :
  current_user self = Some c -> orm.admin c = true ->
  lookup_name name (session st) = None ->
  user_from_username self name st
    = (Ok (Some (length (session st))), created name st).
Proof.
  intros Hc Hadmin Hl. unfold created. munfold. mexec. reflexivity.
Qed.

Lemma rollback_calls (before : list call) (a b c : call) :
  exists before', ((before ++ [a]) ++ [b]) ++ [c] = before' ++ [a; b; c].
Proof. exists before. rewrite <- !app_assoc. reflexivity. Qed.

(** C9. When the authenticator's add_user raises during CreateUser (admin
    caller, new name, payload absent or valid), whatever the exception, it
    is caught: the request ends in the 400 error ProvisioningFailed, not in
    the exception; the record that had just been created is deleted again
    and the deletion committed, so that session and committed store are
    both the session the request started from, and the last calls of the
    request are the error log, the delete and the commit. *)
Theorem create_user_rollback (self : Handler) (name : string) (st : state)
    (c : orm.User) (what : string) :
  current_user self = Some c -> orm.admin c = true ->
  lookup_name name (session st) = None ->
  (truthy (json_body self) = true ->
     _check_user_model (json_body self) = Ok tt) ->
  add_user_raises self = Some what ->
  exists st',
    UserAPIHandler.post self name st = (Raise (ProvisioningFailed name), st')
    /\ session st' = session st
    /\ committed st' = session st
    /\ lookup_name name (session st') = None
    /\ (exists before,
          calls st'
            = before ++ [LogError; DbDelete (length (session st)); DbCommit])
    /\ status st' = status st
    /\ written st' = written st.
Proof.
  intros Hc Hadmin Hl Hvalid Hraise.
  unfold UserAPIHandler.post, UserAPIHandler.post_body. munfold.
  destruct (truthy (json_body self)) eqn:Htruthy.
  - specialize (Hvalid eq_refl).
    destruct (check_user_model_ok _ Hvalid) as (d & Hbody & _).
    rewrite Hbody in Hvalid.
    destruct (dict_get d "admin") as [v|] eqn:Hget.
    + destruct (checked_admin_is_bool d v Hvalid Hget) as [b ->].
      unfold setattr. munfold. mexec.
      eexists. split; [reflexivity|]. mexec.
      repeat split; try assumption.
      apply rollback_calls.
    + mexec.
      eexists. split; [reflexivity|]. mexec.
      repeat split; try assumption.
      apply rollback_calls.
  - mexec.
    eexists. split; [reflexivity|]. mexec.
    repeat split; try assumption.
    apply rollback_calls.
Qed.

Lemma create_user_rollback_witness :
  exists st',
    UserAPIHandler.post
      (Sample.add_user_fails
         (Sample.request (Some Sample.root) (JDict [("admin", JBool true)])))
      "bob" (Sample.store [Sample.root])
    = (Raise (ProvisioningFailed "bob"), st')
    /\ session st' = [Sample.root]
    /\ committed st' = [Sample.root].
Proof.
  destruct (create_user_rollback
              (Sample.add_user_fails
                 (Sample.request (Some Sample.root)
                    (JDict [("admin", JBool true)])))
              "bob" (Sample.store [Sample.root]) Sample.root "LookupError"
              eq_refl eq_refl eq_refl (fun _ => eq_refl) eq_refl)
    as (st' & Hrun & Hs & Hc & _).
  exists st'. exact (conj Hrun (conj Hs Hc)).
Defined.

(** ** Validation in CreateUser and UpdateUser *)

Lemma patch_rejects self name st c r u e :
  current_user self = Some c -> orm.admin c = true ->
  lookup_name name (session st) = Some (r, u) ->
  _check_user_model (json_body self) = Raise e ->
  UserAPIHandler.patch self name st = (Raise e, st).
Proof.
  intros Hc Hadmin Hl Hbad.
  unfold UserAPIHandler.patch, UserAPIHandler.patch_body. munfold.
  mexec. reflexivity.
Qed.

Lemma post_rejects self name st c e :
  current_user self = Some c -> orm.admin c = true ->
  lookup_name name (session st) = None ->
  truthy (json_body self) = true ->
  _check_user_model (json_body self) = Raise e ->
  UserAPIHandler.post self name st = (Raise e, created name st).
Proof.
  intros Hc Hadmin Hl Htruthy Hbad.
  unfold UserAPIHandler.post, UserAPIHandler.post_body, created. munfold.
  mexec. reflexivity.
Qed.

Lemma post_without_body self name st c :
  current_user self = Some c -> orm.admin c = true ->
  lookup_name name (session st) = None ->
  truthy (json_body self) = false ->
  add_user_raises self = None ->
  UserAPIHandler.post self name st
    = (Ok tt,
       with_status 201
         (with_written (render_user (orm.new name))
            (record_call (AuthAddUser (length (session st)))
               (created name st)))).
Proof.
  intros Hc Hadmin Hl Hfalsy Hadd.
  unfold UserAPIHandler.post, UserAPIHandler.post_body, created. munfold.
  mexec. reflexivity.
Qed.

(** C2. The request on which CreateUser breaks the promise that a
    validation error leaves no partial state: an admin creates "bob" with
    a payload whose key is not allowed.  The request fails InvalidKeys, yet
    the record for "bob" is in the session and in the committed store,
    which is no longer the store the request started from. *)
Lemma create_invalid_payload_leaves_record :
  UserAPIHandler.post
    (Sample.request (Some Sample.root) (JDict [("foo", JInt 1)])) "bob"
    (Sample.store [Sample.root])
  = (Raise (InvalidKeys (JDict [("foo", JInt 1)])),
     created "bob" (Sample.store [Sample.root]))
  /\ session (created "bob" (Sample.store [Sample.root]))
     = [Sample.root; orm.new "bob"]
  /\ committed (created "bob" (Sample.store [Sample.root]))
     = [Sample.root; orm.new "bob"]
  /\ committed (created "bob" (Sample.store [Sample.root]))
     <> committed (Sample.store [Sample.root]).
Proof. repeat split. discriminate. Qed.

(** UpdateUser does keep the promise: a payload that fails validation
    makes the request fail with the whole state as it was. *)
Lemma update_invalid_payload_no_mutation self name st e :
  _check_user_model (json_body self) = Raise e ->
  exists e', UserAPIHandler.patch self name st = (Raise e', st).
Proof.
  intros Hbad.
  unfold UserAPIHandler.patch, UserAPIHandler.patch_body. munfold.
  destruct (current_user self) as [c|]; mexec; [|eauto].
  destruct (orm.admin c); mexec; [|eauto].
  destruct (lookup_name name (session st)) as [[r u]|]; mexec; eauto.
Qed.

(** A CreateUser request without a body is not validated: it creates the
    user and answers 201. *)
Lemma create_null_payload_not_rejected :
  (forall d, JNull <> JDict d)
  /\ UserAPIHandler.post (Sample.request (Some Sample.root) JNull) "bob"
       (Sample.store [Sample.root])
     = (Ok tt,
        with_status 201
          (with_written (render_user (orm.new "bob"))
             (record_call (AuthAddUser 1)
                (created "bob" (Sample.store [Sample.root])))))
  /\ (UserAPIHandler.post (Sample.request (Some Sample.root) JNull) "bob"
        (Sample.store [Sample.root])).1
     <> Raise (InvalidPayload JNull).
Proof. repeat split; discriminate. Qed.

(** C4, amended. The validator answers InvalidPayload for a payload that
    is not a mapping, InvalidKeys for a mapping with a key outside name
    and admin, TypeMismatch for a mapping with allowed keys one of whose
    values has not the declared type, and passes otherwise, without
    touching the state.  Every UpdateUser payload goes through it, and so
    does every CreateUser payload that is true in a condition; a
    CreateUser request whose payload is null (no body) is not validated and
    goes on to provisioning. *)
Theorem payload_validation (self : Handler) (name : string) (st : state)
    (c : orm.User) :
  current_user self = Some c -> orm.admin c = true ->
  ((~ is_mapping (json_body self) ->
      _check_user_model (json_body self)
        = Raise (InvalidPayload (json_body self)))
   /\ (forall d, json_body self = JDict d ->
         ~ Forall allowed_key (dict_keys d) ->
         _check_user_model (json_body self)
           = Raise (InvalidKeys (json_body self)))
   /\ (forall d, json_body self = JDict d ->
         Forall allowed_key (dict_keys d) -> ~ Forall well_typed d ->
         exists k t v, (k, v) ∈ d /\ ~ well_typed (k, v)
           /\ dict_get _model_types k = Some t
           /\ _check_user_model (json_body self)
              = Raise (TypeMismatch k t (type_of v)))
   /\ (forall d, json_body self = JDict d ->
         Forall allowed_key (dict_keys d) -> Forall well_typed d ->
         _check_user_model (json_body self) = Ok tt))
  /\ lift (_check_user_model (json_body self)) st
     = (_check_user_model (json_body self), st)
  /\ (forall r u e,
        lookup_name name (session st) = Some (r, u) ->
        _check_user_model (json_body self) = Raise e ->
        UserAPIHandler.patch self name st = (Raise e, st))
  /\ (forall e,
        lookup_name name (session st) = None ->
        truthy (json_body self) = true ->
        _check_user_model (json_body self) = Raise e ->
        UserAPIHandler.post self name st = (Raise e, created name st))
  /\ (lookup_name name (session st) = None ->
      json_body self = JNull ->
      add_user_raises self = None ->
      UserAPIHandler.post self name st
        = (Ok tt,
           with_status 201
             (with_written (render_user (orm.new name))
                (record_call (AuthAddUser (length (session st)))
                   (created name st))))).
Proof.
  intros Hc Hadmin.
  split; [apply check_user_model_cases|].
  split; [reflexivity|].
  split; [|split].
  - intros r u e. apply (patch_rejects _ _ _ c); assumption.
  - intros e. apply (post_rejects _ _ _ c); assumption.
  - intros Hl Hnull. apply (post_without_body _ _ _ c); try assumption.
    rewrite Hnull. reflexivity.
Qed.

Lemma payload_validation_witness :
  UserAPIHandler.patch
    (Sample.request (Some Sample.root) (JList [JStr "admin"])) "alice"
    (Sample.store [Sample.root; Sample.alice])
  = (Raise (InvalidPayload (JList [JStr "admin"])),
     Sample.store [Sample.root; Sample.alice])
  /\ UserAPIHandler.post
       (Sample.request (Some Sample.root)
          (JDict [("admin", JStr "yes")])) "bob"
       (Sample.store [Sample.root])
     = (Raise (TypeMismatch "admin" py_bool py_str),
        created "bob" (Sample.store [Sample.root])).
Proof.
  split.
  - destruct (payload_validation
                (Sample.request (Some Sample.root) (JList [JStr "admin"]))
                "alice" (Sample.store [Sample.root; Sample.alice])
                Sample.root eq_refl eq_refl) as (_ & _ & Hpatch & _).
    exact (Hpatch 1%nat Sample.alice _ eq_refl eq_refl).
  - destruct (payload_validation
                (Sample.request (Some Sample.root)
                   (JDict [("admin", JStr "yes")]))
                "bob" (Sample.store [Sample.root])
                Sample.root eq_refl eq_refl) as (_ & _ & _ & Hpost & _).
    exact (Hpost _ eq_refl eq_refl eq_refl).
Defined.

(** ** Names of records across the operations *)

Section frame.
Context {A : Type}.

Lemma keeps_preserves (I : list string -> Prop) (m : M A) :
  keeps_names m -> preserves I m.
Proof. intros Hk st HI. rewrite Hk. exact HI. Qed.

Lemma keeps_ret (a : A) : keeps_names (ret a).
Proof. intros st. reflexivity. Qed.

Lemma keeps_raise (e : exn) : keeps_names (@raise A e).
Proof. intros st. reflexivity. Qed.

Lemma keeps_lift (r : result A) : keeps_names (lift r).
Proof. intros st. reflexivity. Qed.

Lemma keeps_gets (f : state -> A) : keeps_names (gets f).
Proof. intros st. reflexivity. Qed.

Lemma keeps_getattr user (f : orm.User -> A) : keeps_names (getattr user f).
Proof.
  intros st. unfold getattr. destruct user as [r|]; [|reflexivity].
  destruct (session st !! r); reflexivity.
Qed.

Lemma preserves_bind {B} I (m : M B) (k : B -> M A) :
  preserves I m -> (forall b, preserves I (k b)) -> preserves I (bind m k).
Proof.
  intros Hm Hk st HI. unfold bind. specialize (Hm st HI).
  destruct (m st) as [[b|e] st1]; cbn [snd] in *.
  - apply Hk. exact Hm.
  - exact Hm.
Qed.

Lemma keeps_bind {B} (m : M B) (k : B -> M A) :
  keeps_names m -> (forall b, keeps_names (k b)) -> keeps_names (bind m k).
Proof.
  intros Hm Hk st. unfold bind. specialize (Hm st).
  destruct (m st) as [[b|e] st1]; cbn [snd] in *.
  - rewrite Hk. exact Hm.
  - exact Hm.
Qed.

Lemma keeps_bind_ret {B} (b : B) (k : B -> M A) :
  keeps_names (k b) -> keeps_names (bind (ret b) k).
Proof. intros Hk st. apply Hk. Qed.

Lemma preserves_try_except I (m : M A) (h : exn -> M A) :
  preserves I m -> (forall e, preserves I (h e)) -> preserves I (try_except m h).
Proof.
  intros Hm Hh st HI. unfold try_except. specialize (Hm st HI).
  destruct (m st) as [[a|e] st1]; cbn [snd] in *.
  - exact Hm.
  - apply Hh. exact Hm.
Qed.

End frame.

Lemma keeps_modify (f : state -> state) :
  (forall st, names (f st) = names st) -> keeps_names (modify f).
Proof. intros Hf st. apply Hf. Qed.

Lemma keeps_when b (m : M unit) : keeps_names m -> keeps_names (when b m).
Proof. intros Hm. destruct b; [exact Hm | apply keeps_ret]. Qed.

Lemma preserves_when I b (m : M unit) : preserves I m -> preserves I (when b m).
Proof.
  intros Hm. destruct b; [exact Hm | apply keeps_preserves, keeps_ret].
Qed.

Lemma keeps_do_call c : keeps_names (do_call c).
Proof. intros st. reflexivity. Qed.

Lemma keeps_find_user self name : keeps_names (find_user self name).
Proof. intros st. reflexivity. Qed.

Lemma keeps_get_current_user self : keeps_names (get_current_user self).
Proof. intros st. reflexivity. Qed.

Lemma keeps_get_json_body self : keeps_names (get_json_body self).
Proof. intros st. reflexivity. Qed.

Lemma keeps_write chunk : keeps_names (write chunk).
Proof. intros st. reflexivity. Qed.

Lemma keeps_set_status code : keeps_names (set_status code).
Proof. intros st. reflexivity. Qed.

Lemma keeps_log_warn : keeps_names log_warn.
Proof. intros st. reflexivity. Qed.

Lemma keeps_log_error : keeps_names log_error.
Proof. intros st. reflexivity. Qed.

Lemma keeps_db_commit : keeps_names db_commit.
Proof. intros st. reflexivity. Qed.

Create HintDb frame.

#[local] Hint Resolve keeps_ret keeps_raise keeps_lift keeps_gets keeps_getattr
  keeps_do_call keeps_find_user keeps_get_current_user keeps_get_json_body
  keeps_write keeps_set_status keeps_log_warn keeps_log_error keeps_db_commit
  : frame.

(** Splits a computation along its binds and branches and closes the
    leaves with the [frame] hints. *)
Ltac frame :=
  repeat first
    [ solve [auto with frame]
    | match goal with
      | |- keeps_names (bind (ret _) _) => apply keeps_bind_ret; cbv beta iota
      | |- keeps_names (bind _ _) => apply keeps_bind; [|intros ?]
      | |- keeps_names (when _ _) => apply keeps_when
      | |- keeps_names (if ?b then _ else _) => destruct b
      | |- keeps_names (match ?x with _ => _ end) => destruct x
      end ].

Lemma names_alter (f : orm.User -> orm.User) r (l : list orm.User) :
  (forall u, orm.name (f u) = orm.name u) ->
  orm.name <$> alter f r l = orm.name <$> l.
Proof.
  intros Hf. rewrite (list_fmap_alter orm.name f id).
  - apply list_alter_id. reflexivity.
  - apply Forall_forall. intros u _. apply Hf.
Qed.

Lemma keeps_update user (f : orm.User -> orm.User) :
  (forall u, orm.name (f u) = orm.name u) -> keeps_names (update user f).
Proof.
  intros Hf. unfold update. frame.
  apply keeps_modify. intros st. unfold names. cbn [session with_session].
  apply names_alter, Hf.
Qed.

#[local] Hint Resolve keeps_update : frame.

Lemma keeps_setattr user k v : k <> "name" -> keeps_names (setattr user k v).
Proof.
  intros Hk. unfold setattr. apply String.eqb_neq in Hk. rewrite Hk.
  destruct v; frame.
Qed.

Lemma keeps_user_model user : keeps_names (user_model user).
Proof. unfold user_model. frame. Qed.

Lemma keeps_set_server_cookie user : keeps_names (set_server_cookie user).
Proof. unfold set_server_cookie. frame. Qed.

Lemma keeps_spawner_poll user sp : keeps_names (spawner_poll user sp).
Proof. unfold spawner_poll. frame. Qed.

Lemma keeps_spawn_single_user self user : keeps_names (spawn_single_user self user).
Proof. unfold spawn_single_user. frame. Qed.

Lemma keeps_stop_single_user self user : keeps_names (stop_single_user self user).
Proof. unfold stop_single_user. frame. Qed.

Lemma keeps_authenticator_add_user self user :
  keeps_names (authenticator_add_user self user).
Proof. unfold authenticator_add_user. frame. Qed.

Lemma keeps_authenticator_delete_user self user :
  keeps_names (authenticator_delete_user self user).
Proof. unfold authenticator_delete_user. frame. Qed.

#[local] Hint Resolve keeps_user_model keeps_set_server_cookie keeps_spawner_poll
  keeps_spawn_single_user keeps_stop_single_user
  keeps_authenticator_add_user keeps_authenticator_delete_user : frame.

Lemma keeps_admin_or_self method self name :
  keeps_names (method self name) -> keeps_names (admin_or_self method self name).
Proof. intros Hm. unfold admin_or_self. frame. Qed.

Lemma keeps_render_all n from : keeps_names (UserListAPIHandler.render_all n from).
Proof.
  revert from. induction n as [|n IH]; intros from; cbn [UserListAPIHandler.render_all].
  - frame.
  - frame.
Qed.

Lemma keeps_read_only self name :
  keeps_names (UserListAPIHandler.get self tt)
  /\ keeps_names (UserAPIHandler.get self name)
  /\ keeps_names (UserServerAPIHandler.post self name)
  /\ keeps_names (UserServerAPIHandler.delete self name)
  /\ keeps_names (UserAdminAccessAPIHandler.post self name).
Proof.
  repeat split.
  - unfold UserListAPIHandler.get, admin_only, UserListAPIHandler.get_body.
    frame. apply keeps_render_all.
  - apply keeps_admin_or_self. unfold UserAPIHandler.get_body. frame.
  - apply keeps_admin_or_self. unfold UserServerAPIHandler.post_body. frame.
  - apply keeps_admin_or_self. unfold UserServerAPIHandler.delete_body. frame.
  - unfold UserAdminAccessAPIHandler.post, admin_only,
      UserAdminAccessAPIHandler.post_body. frame.
Qed.

(** DeleteUser only ever removes records. *)

Lemma preserves_db_delete ns0 user :
  preserves (fun ns => ns `sublist_of` ns0) (db_delete user).
Proof.
  intros st Hsub. destruct user as [r|]; [|exact Hsub].
  cbv beta iota delta [db_delete bind modify do_call names snd session
    with_session record_call].
  rewrite list_fmap_delete. etransitivity; [apply sublist_delete | exact Hsub].
Qed.

Ltac pframe :=
  repeat first
    [ solve [apply keeps_preserves; auto with frame]
    | solve [auto with frame]
    | match goal with
      | |- preserves _ (bind _ _) => apply preserves_bind; [|intros ?]
      | |- preserves _ (when _ _) => apply preserves_when
      | |- preserves _ (if ?b then _ else _) => destruct b
      | |- preserves _ (match ?x with _ => _ end) => destruct x
      end ].

Lemma delete_names_sublist self name st :
  names (UserAPIHandler.delete self name st).2 `sublist_of` names st.
Proof.
  assert (preserves (fun ns => ns `sublist_of` names st)
            (UserAPIHandler.delete self name)) as Hp.
  { unfold UserAPIHandler.delete, admin_only, UserAPIHandler.delete_body.
    pose proof (preserves_db_delete (names st)) as Hdel.
    pframe. }
  apply Hp. reflexivity.
Qed.

(** UpdateUser with a payload that has no [name] item. *)

Lemma dict_get_None_keys {V} (d : dict V) k :
  dict_get d k = None -> Forall (fun kv => kv.1 <> k) d.
Proof.
  induction d as [|[k' v] d IH]; [constructor|]. cbn [dict_get].
  destruct (String.eqb_spec k' k) as [_ | Hne]; [discriminate|].
  intros H. constructor; [exact Hne | exact (IH H)].
Qed.

Lemma keeps_for_each_setattr user (items : dict json) :
  Forall (fun kv => kv.1 <> "name") items ->
  keeps_names (for_each items (fun kv => setattr user kv.1 kv.2)).
Proof.
  induction 1 as [|kv items Hkv _ IH]; cbn [for_each]; frame.
  apply keeps_setattr. exact Hkv.
Qed.

Lemma patch_without_name_keeps self name :
  (forall d, json_body self = JDict d -> dict_get d "name" = None) ->
  keeps_names (UserAPIHandler.patch self name).
Proof.
  intros Hno.
  unfold UserAPIHandler.patch, admin_only, UserAPIHandler.patch_body,
    get_json_body.
  destruct (json_body self) as [| | | | | |d] eqn:Hbody; frame.
  apply keeps_for_each_setattr, dict_get_None_keys, Hno. reflexivity.
Qed.

(** CreateUser only ever appends a record. *)

Lemma post_names_prefix self name st :
  names st `prefix_of` names (UserAPIHandler.post self name st).2.
Proof.
  assert (forall st', names st' = names st \/ (exists n, names st' = names st ++ [n]) ->
                      names st `prefix_of` names st') as Hdone.
  { intros st' [-> | [n ->]]; [reflexivity | apply prefix_app_r; reflexivity]. }
  unfold UserAPIHandler.post, UserAPIHandler.post_body, setattr. munfold.
  destruct (current_user self) as [c|] eqn:Hc; mexec; [|reflexivity].
  destruct (orm.admin c) eqn:Hadmin; mexec; [|reflexivity].
  destruct (lookup_name name (session st)) as [[r u]|] eqn:Hl; mexec;
    [reflexivity|].
  destruct (truthy (json_body self)) eqn:Htruthy; mexec.
  - destruct (_check_user_model (json_body self)) as [[]|e] eqn:Hcheck; mexec.
    + destruct (check_user_model_ok _ Hcheck) as (d & Hbody & _).
      rewrite Hbody in *. mexec.
      destruct (dict_get d "admin") as [v|] eqn:Hget; mexec.
      * destruct (checked_admin_is_bool d v Hcheck Hget) as [b ->]. mexec.
        destruct (add_user_raises self); mexec; apply Hdone; unfold names;
          mexec; rewrite ?fmap_app; eauto.
      * destruct (add_user_raises self); mexec; apply Hdone; unfold names;
          mexec; rewrite ?fmap_app; eauto.
    + apply Hdone. unfold names. mexec. rewrite fmap_app. eauto.
  - destruct (add_user_raises self); mexec; apply Hdone; unfold names;
      mexec; rewrite ?fmap_app; eauto.
Qed.

(** UpdateUser with a [name] item. *)

Lemma insert_alter_same {A} (f : A -> A) r (x : A) (l : list A) :
  <[r:=x]> (alter f r l) = <[r:=x]> l.
Proof.
  rewrite !list_insert_alter, list_alter_alter_eq. reflexivity.
Qed.

Lemma update_run r (f : orm.User -> orm.User) st u :
  session st !! r = Some u ->
  update (Some r) f st = (Ok tt, with_session (alter f r) st).
Proof. intros Hr. munfold. mexec. reflexivity. Qed.

Lemma for_each_setattr_run r (d : dict json) :
  forall st u,
    Forall allowed_key (dict_keys d) -> Forall well_typed d ->
    session st !! r = Some u ->
    exists st' u',
      for_each d (fun kv => setattr (Some r) kv.1 kv.2) st = (Ok tt, st')
      /\ session st' = <[r:=u']> (session st)
      /\ orm.name u' = renamed d (orm.name u).
Proof.
  induction d as [|[k v] d IH]; intros st u Hkeys Hwt Hr.
  - exists st, u. repeat split. symmetry. apply list_insert_id. exact Hr.
  - unfold dict_keys in Hkeys. rewrite fmap_cons in Hkeys.
    apply Forall_cons in Hkeys as [Hk Hkeys].
    apply Forall_cons in Hwt as [[Hname Hadmin] Hwt].
    cbn [fst snd] in Hk, Hname, Hadmin.
    cbn [for_each fst snd]. unfold bind at 1.
    assert (exists f, setattr (Some r) k v st
                        = (Ok tt, with_session (alter f r) st)
                      /\ renamed ((k, v) :: d) (orm.name u)
                         = renamed d (orm.name (f u))) as (f & -> & ->).
    { destruct Hk as [-> | ->].
      - destruct (Hname eq_refl) as [s ->]. exists (orm.set_name s).
        split; [apply (update_run _ _ _ u Hr) | reflexivity].
      - destruct (Hadmin eq_refl) as [b ->]. exists (orm.set_admin b).
        split; [apply (update_run _ _ _ u Hr) | reflexivity]. }
    destruct (IH (with_session (alter f r) st) (f u) Hkeys Hwt)
      as (st' & u' & Hrun & Hs & Hn).
    { cbn [session with_session]. rewrite list_lookup_alter_eq, Hr. reflexivity. }
    exists st', u'. split; [exact Hrun|]. split; [|exact Hn].
    rewrite Hs. cbn [session with_session]. apply insert_alter_same.
Qed.

Lemma renamed_without_name (d : dict json) n :
  "name" ∉ dict_keys d -> renamed d n = n.
Proof.
  revert n. induction d as [|[k v] d IH]; intros n Hno; [reflexivity|].
  unfold dict_keys in Hno. rewrite fmap_cons in Hno.
  apply not_elem_of_cons in Hno as [Hk Hno]. cbn [fst] in Hk.
  change (renamed ((k, v) :: d) n)
    with (renamed d (match v with
                     | JStr s => if String.eqb k "name" then s else n
                     | _ => n
                     end)).
  assert (String.eqb k "name" = false) as ->.
  { apply String.eqb_neq. congruence. }
  rewrite (IH _ Hno). destruct v; reflexivity.
Qed.

Lemma renamed_with_name (d : dict json) n s :
  NoDup (dict_keys d) -> dict_get d "name" = Some (JStr s) ->
  renamed d n = s.
Proof.
  revert n. induction d as [|[k v] d IH]; intros n Hnd Hget; [discriminate|].
  unfold dict_keys in Hnd. rewrite fmap_cons in Hnd.
  apply NoDup_cons in Hnd as [Hk Hnd]. cbn [fst] in Hk.
  change (renamed ((k, v) :: d) n)
    with (renamed d (match v with
                     | JStr s => if String.eqb k "name" then s else n
                     | _ => n
                     end)).
  cbn [dict_get] in Hget.
  destruct (String.eqb_spec k "name") as [-> | Hne].
  - injection Hget as ->. apply renamed_without_name. exact Hk.
  - rewrite (IH _ Hnd Hget). reflexivity.
Qed.

Lemma patch_with_name_renames self name st c r u d s :
  current_user self = Some c -> orm.admin c = true ->
  lookup_name name (session st) = Some (r, u) ->
  json_body self = JDict d -> NoDup (dict_keys d) ->
  _check_user_model (JDict d) = Ok tt ->
  dict_get d "name" = Some (JStr s) ->
  (UserAPIHandler.patch self name st).1 = Ok tt
  /\ names (UserAPIHandler.patch self name st).2 = <[r:=s]> (names st).
Proof.
  intros Hc Hadmin Hl Hbody Hnd Hcheck Hget.
  apply lookup_name_Some in Hl as Hr. destruct Hr as [Hr _].
  destruct (check_user_model_ok _ Hcheck) as (d' & [= <-] & Hkeys & Hwt).
  destruct (for_each_setattr_run r d st u Hkeys Hwt Hr)
    as (st' & u' & Hrun & Hs & Hn).
  rewrite (renamed_with_name d _ s Hnd Hget) in Hn.
  assert (session st' !! r = Some u') as Hr'.
  { rewrite Hs. apply list_lookup_insert_eq. apply lookup_lt_Some in Hr. exact Hr. }
  unfold UserAPIHandler.patch, UserAPIHandler.patch_body. munfold.
  mexec. unfold names. mexec.
  split; [reflexivity|]. rewrite list_fmap_insert, Hn. reflexivity.
Qed.

(** An UpdateUser whose payload carries a [name] renames the record. *)
Lemma update_changes_name :
  names (Sample.store [Sample.root; Sample.alice]) = ["root"; "alice"]
  /\ (UserAPIHandler.patch
        (Sample.request (Some Sample.root) (JDict [("name", JStr "eve")]))
        "alice" (Sample.store [Sample.root; Sample.alice])).1 = Ok tt
  /\ names (UserAPIHandler.patch
              (Sample.request (Some Sample.root)
                 (JDict [("name", JStr "eve")]))
              "alice" (Sample.store [Sample.root; Sample.alice])).2
     = ["root"; "eve"]
  /\ names (UserAPIHandler.patch
              (Sample.request (Some Sample.root)
                 (JDict [("name", JStr "eve")]))
              "alice" (Sample.store [Sample.root; Sample.alice])).2
     <> names (Sample.store [Sample.root; Sample.alice]).
Proof. repeat split. discriminate. Qed.

(** C3, amended. No operation other than UpdateUser changes the name of an
    existing record: listing, reading, spawning, stopping and granting
    admin access leave the names of all records as they are, CreateUser
    can only append a record after the existing ones, DeleteUser can only
    remove records.  UpdateUser leaves all names as they are when its
    payload has no name item; when an admin's validated payload carries a
    name item, the target's name becomes that value and every other
    record keeps its name. *)
Theorem record_names_frame (self : Handler) (name : string) (st : state) :
  (names (UserListAPIHandler.get self tt st).2 = names st
   /\ names (UserAPIHandler.get self name st).2 = names st
   /\ names (UserServerAPIHandler.post self name st).2 = names st
   /\ names (UserServerAPIHandler.delete self name st).2 = names st
   /\ names (UserAdminAccessAPIHandler.post self name st).2 = names st)
  /\ names st `prefix_of` names (UserAPIHandler.post self name st).2
  /\ names (UserAPIHandler.delete self name st).2 `sublist_of` names st
  /\ ((forall d, json_body self = JDict d -> dict_get d "name" = None) ->
      names (UserAPIHandler.patch self name st).2 = names st)
  /\ (forall c r u d s,
        current_user self = Some c -> orm.admin c = true ->
        lookup_name name (session st) = Some (r, u) ->
        json_body self = JDict d -> NoDup (dict_keys d) ->
        _check_user_model (JDict d) = Ok tt ->
        dict_get d "name" = Some (JStr s) ->
        (UserAPIHandler.patch self name st).1 = Ok tt
        /\ names (UserAPIHandler.patch self name st).2 = <[r:=s]> (names st)).
Proof.
  split; [|split; [|split; [|split]]].
  - destruct (keeps_read_only self name) as (H1 & H2 & H3 & H4 & H5).
    repeat split; [apply H1 | apply H2 | apply H3 | apply H4 | apply H5].
  - apply post_names_prefix.
  - apply delete_names_sublist.
  - intros Hno. apply patch_without_name_keeps, Hno.
  - intros c r u d s. apply patch_with_name_renames.
Qed.

Lemma record_names_frame_witness :
  names (UserAPIHandler.patch
           (Sample.request (Some Sample.root) (JDict [("admin", JBool true)]))
           "alice" (Sample.store [Sample.root; Sample.alice])).2
  = names (Sample.store [Sample.root; Sample.alice])
  /\ names (UserAPIHandler.patch
              (Sample.request (Some Sample.root)
                 (JDict [("name", JStr "eve"); ("admin", JBool true)]))
              "alice" (Sample.store [Sample.root; Sample.alice])).2
     = <[1%nat:="eve"]> (names (Sample.store [Sample.root; Sample.alice])).
Proof.
  split.
  - destruct (record_names_frame
                (Sample.request (Some Sample.root)
                   (JDict [("admin", JBool true)]))
                "alice" (Sample.store [Sample.root; Sample.alice]))
      as (_ & _ & _ & Hkeep & _).
    apply Hkeep. intros d Hd. injection Hd as <-. reflexivity.
  - destruct (record_names_frame
                (Sample.request (Some Sample.root)
                   (JDict [("name", JStr "eve"); ("admin", JBool true)]))
                "alice" (Sample.store [Sample.root; Sample.alice]))
      as (_ & _ & _ & _ & Hrename).
    apply (Hrename Sample.root 1%nat Sample.alice
             [("name", JStr "eve"); ("admin", JBool true)] "eve");
      try reflexivity.
    apply NoDup_cons. split; [|apply NoDup_singleton].
    intros Hin. apply list_elem_of_singleton in Hin. discriminate.
Defined.

(** ** Instances of the server and admin-access theorems *)

Lemma grant_admin_access_failures_witness :
  UserAdminAccessAPIHandler.post
    (Sample.request (Some Sample.root) JNull) "nobody"
    (Sample.store [Sample.root; Sample.alice])
  = (Raise FeatureDisabled,
     record_call LogWarn (Sample.store [Sample.root; Sample.alice]))
  /\ server_cookie
       (record_call LogWarn (Sample.store [Sample.root; Sample.alice]))
     = server_cookie (Sample.store [Sample.root; Sample.alice]).
Proof.
  destruct (grant_admin_access_failures
              (Sample.request (Some Sample.root) JNull) "nobody"
              (Sample.store [Sample.root; Sample.alice]))
    as (Hoff & _ & Hfail).
  pose proof (Hoff Sample.root eq_refl eq_refl eq_refl) as Hrun.
  split; [exact Hrun|].
  exact (proj1 (Hfail _ _ Hrun)).
Defined.

Lemma stop_server_outcomes_witness :
  UserServerAPIHandler.delete (Sample.request (Some Sample.alice) JNull)
    "alice" (Sample.store [Sample.root; Sample.alice_stopping])
  = (Ok tt, with_status 202 (Sample.store [Sample.root; Sample.alice_stopping]))
  /\ UserServerAPIHandler.delete (Sample.request (Some Sample.alice) JNull)
       "alice" (Sample.store [Sample.root; Sample.alice])
     = (Raise (NotRunning "alice"), Sample.store [Sample.root; Sample.alice])
  /\ UserServerAPIHandler.delete (Sample.request (Some Sample.alice) JNull)
       "alice" (Sample.store [Sample.root; Sample.alice_running Sample.exited])
     = (Raise (NotRunning "alice"),
        record_call (SpawnerPoll 1)
          (Sample.store [Sample.root; Sample.alice_running Sample.exited]))
  /\ UserServerAPIHandler.delete
       (Sample.slow (Sample.request (Some Sample.alice) JNull))
       "alice" (Sample.store [Sample.root; Sample.alice_running Sample.live])
     = (Ok tt,
        with_status 202
          (with_session (alter stopping 1%nat)
             (record_call (StopSingleUser 1)
                (record_call (SpawnerPoll 1)
                   (Sample.store
                      [Sample.root; Sample.alice_running Sample.live]))))).
Proof.
  refine (conj _ (conj _ (conj _ _))).
  - destruct (stop_server_outcomes
                (Sample.request (Some Sample.alice) JNull) "alice"
                (Sample.store [Sample.root; Sample.alice_stopping])
                Sample.alice 1%nat Sample.alice_stopping
                eq_refl (or_introl eq_refl) eq_refl) as (H & _).
    exact (proj1 (H eq_refl)).
  - destruct (stop_server_outcomes
                (Sample.request (Some Sample.alice) JNull) "alice"
                (Sample.store [Sample.root; Sample.alice])
                Sample.alice 1%nat Sample.alice
                eq_refl (or_introl eq_refl) eq_refl) as (_ & H & _).
    exact (H eq_refl eq_refl).
  - destruct (stop_server_outcomes
                (Sample.request (Some Sample.alice) JNull) "alice"
                (Sample.store [Sample.root; Sample.alice_running Sample.exited])
                Sample.alice 1%nat (Sample.alice_running Sample.exited)
                eq_refl (or_introl eq_refl) eq_refl) as (_ & _ & H & _).
    exact (H Sample.exited 0 eq_refl eq_refl eq_refl eq_refl).
  - destruct (stop_server_outcomes
                (Sample.slow (Sample.request (Some Sample.alice) JNull)) "alice"
                (Sample.store [Sample.root; Sample.alice_running Sample.live])
                Sample.alice 1%nat (Sample.alice_running Sample.live)
                eq_refl (or_introl eq_refl) eq_refl) as (_ & _ & _ & H).
    exact (proj1 (H Sample.live eq_refl eq_refl eq_refl eq_refl) eq_refl).
Defined.

Lemma spawn_server_outcomes_witness :
  UserServerAPIHandler.post (Sample.request (Some Sample.alice) JNull)
    "alice" (Sample.store [Sample.root; Sample.alice_running Sample.live])
  = (Raise (Conflict (AlreadyRunning "alice")),
     record_call (SpawnerPoll 1)
       (Sample.store [Sample.root; Sample.alice_running Sample.live]))
  /\ UserServerAPIHandler.post
       (Sample.slow (Sample.request (Some Sample.alice) JNull))
       "alice" (Sample.store [Sample.root; Sample.alice])
     = (Ok tt,
        with_status 202
          (with_session (alter (spawning Sample.live) 1%nat)
             (record_call (SpawnSingleUser 1)
                (Sample.store [Sample.root; Sample.alice]))))
  /\ UserServerAPIHandler.post (Sample.request (Some Sample.alice) JNull)
       "alice" (Sample.store [Sample.root; Sample.alice_running Sample.exited])
     = (Ok tt,
        with_status 201
          (with_session (alter (spawned Sample.live Sample.srv) 1%nat)
             (record_call (SpawnSingleUser 1)
                (record_call (SpawnerPoll 1)
                   (Sample.store
                      [Sample.root; Sample.alice_running Sample.exited]))))).
Proof.
  refine (conj _ (conj _ _)).
  - destruct (spawn_server_outcomes
                (Sample.request (Some Sample.alice) JNull) "alice"
                (Sample.store [Sample.root; Sample.alice_running Sample.live])
                Sample.alice 1%nat (Sample.alice_running Sample.live)
                eq_refl (or_introl eq_refl) eq_refl) as (H & _).
    exact (proj1 (H Sample.live eq_refl eq_refl)).
  - destruct (spawn_server_outcomes
                (Sample.slow (Sample.request (Some Sample.alice) JNull)) "alice"
                (Sample.store [Sample.root; Sample.alice])
                Sample.alice 1%nat Sample.alice
                eq_refl (or_introl eq_refl) eq_refl) as (_ & H).
    destruct (H (or_introl eq_refl)) as (Hslow & _).
    exact (proj1 (Hslow Sample.live eq_refl)).
  - destruct (spawn_server_outcomes
                (Sample.request (Some Sample.alice) JNull) "alice"
                (Sample.store [Sample.root; Sample.alice_running Sample.exited])
                Sample.alice 1%nat (Sample.alice_running Sample.exited)
                eq_refl (or_introl eq_refl) eq_refl) as (_ & H).
    destruct (H (or_intror (ex_intro _ Sample.exited
                              (ex_intro _ 0 (conj eq_refl eq_refl)))))
      as (_ & Hdone).
    exact (proj1 (Hdone Sample.live Sample.srv eq_refl)).
Defined.

(** * Further properties of the handlers *)

(** ** The rendered model *)

(** X1. The model [user_model] builds always has the five keys name,
    admin, server, pending and last_activity, in that order.  Name, admin
    and last activity are those of the record; server is the base URL of
    the record's server when the user is running and null otherwise;
    pending is "spawn" when a spawn is pending, even if a stop is pending
    too, "stop" when only a stop is pending, and null otherwise. *)
Theorem user_model_shape (u : orm.User) :
  model_keys (render_user u)
    = ["name"; "admin"; "server"; "pending"; "last_activity"]
  /\ model_get (render_user u) "name" = Some (JStr (orm.name u))
  /\ model_get (render_user u) "admin" = Some (JBool (orm.admin u))
  /\ model_get (render_user u) "last_activity"
     = Some (JStr (orm.last_activity u))
  /\ model_get (render_user u) "server"
     = Some (match orm.spawner u, orm.server u with
             | Some _, Some srv => JStr (orm.base_url srv)
             | _, _ => JNull
             end)
  /\ model_get (render_user u) "pending"
     = Some (if orm.spawn_pending u then JStr "spawn"
             else if orm.stop_pending u then JStr "stop"
             else JNull).
Proof.
  destruct u as [n a srv sp spawn stop last].
  unfold render_user, orm.running. cbn [orm.name orm.admin orm.server
    orm.spawner orm.spawn_pending orm.stop_pending orm.last_activity].
  destruct spawn, stop, sp, srv; repeat split.
Qed.

(** X2. A rendered model is never accepted as a payload: its keys go
    beyond name and admin, so validation answers InvalidKeys for it,
    whatever the record. *)
Theorem rendered_model_is_not_a_payload (u : orm.User) :
  _check_user_model (render_user u) = Raise (InvalidKeys (render_user u)).
Proof.
  destruct u as [n a srv sp spawn stop last].
  unfold render_user. cbn [orm.spawn_pending orm.stop_pending].
  destruct spawn, stop; reflexivity.
Qed.

(** ** Which item validation reports *)

(** X3. When every key of a mapping is allowed, validation reports the
    first item, in the order of the payload, whose value has not the
    declared type: the items before it are well typed and those after it
    are not looked at. *)
Theorem check_user_model_first_mismatch (before after : dict json)
    (k : string) (v : json) (t : pytype) :
  Forall allowed_key (dict_keys before) ->
  Forall well_typed before ->
  dict_get _model_types k = Some t ->
  ~ well_typed (k, v) ->
  _check_user_model (JDict (before ++ (k, v) :: after))
    = (if issubset (dict_keys after) (dict_keys _model_types)
       then Raise (TypeMismatch k t (type_of v))
       else Raise (InvalidKeys (JDict (before ++ (k, v) :: after)))).
Proof.
  intros Hkeys Hwt Ht Hbad.
  assert (isinstance v t = false) as Hi.
  { destruct (isinstance v t) eqn:Hi; [|reflexivity].
    exfalso. apply Hbad, (isinstance_well_typed k v t Ht). exact Hi. }
  assert (allowed_key k) as Hk by (apply allowed_key_types; eauto).
  cbn [_check_user_model].
  destruct (issubset (dict_keys after) (dict_keys _model_types)) eqn:Hafter.
  - assert (issubset (dict_keys (before ++ (k, v) :: after))
              (dict_keys _model_types) = true) as ->.
    { apply issubset_allowed. unfold dict_keys. rewrite fmap_app, fmap_cons.
      apply Forall_app. split; [exact Hkeys|].
      constructor; [exact Hk | apply issubset_allowed; exact Hafter]. }
    cbn [negb]. clear Hafter.
    induction before as [|[k' v'] before IH].
    + cbn [app check_items]. rewrite Ht, Hi. reflexivity.
    + unfold dict_keys in Hkeys. rewrite fmap_cons in Hkeys.
      apply Forall_cons in Hkeys as [Hk' Hkeys].
      apply Forall_cons in Hwt as [Hwt' Hwt].
      cbn [fst] in Hk'. apply allowed_key_types in Hk' as [t' Ht'].
      cbn [app check_items]. rewrite Ht'.
      apply (isinstance_well_typed k' v' t' Ht') in Hwt'. rewrite Hwt'.
      cbn [negb]. apply IH; assumption.
  - assert (issubset (dict_keys (before ++ (k, v) :: after))
              (dict_keys _model_types) = false) as ->; [|reflexivity].
    destruct (issubset (dict_keys (before ++ (k, v) :: after))
                (dict_keys _model_types)) eqn:Hall; [|reflexivity].
    apply issubset_allowed in Hall. unfold dict_keys in Hall.
    rewrite fmap_app, fmap_cons in Hall.
    apply Forall_app in Hall as [_ Hall].
    apply Forall_cons in Hall as [_ Hall].
    apply issubset_allowed in Hall. unfold dict_keys in *. congruence.
Qed.

Lemma check_user_model_first_mismatch_witness :
  _check_user_model (JDict [("name", JInt 5); ("admin", JStr "yes")])
  = Raise (TypeMismatch "name" py_str py_int).
Proof.
  apply (check_user_model_first_mismatch
           [] [("admin", JStr "yes")] "name" (JInt 5) py_str).
  - constructor.
  - constructor.
  - reflexivity.
  - intros [Hs _]. destruct (Hs eq_refl) as [s Hs']. discriminate.
Defined.

(** ** Reading users *)

Lemma render_all_run n : forall from st,
  (from + n)%nat = length (session st) ->
  UserListAPIHandler.render_all n from st
    = (Ok (render_user <$> drop from (session st)), st).
Proof.
  induction n as [|n IH]; intros from st Hlen.
  - cbn [UserListAPIHandler.render_all]. rewrite drop_ge by lia. reflexivity.
  - destruct (lookup_lt_is_Some_2 (session st) from) as [u Hu]; [lia|].
    cbn [UserListAPIHandler.render_all]. munfold. mexec.
    rewrite IH by lia. rewrite (drop_S _ _ _ Hu). reflexivity.
Qed.

(** X4. ListUsers by an admin writes one list holding the rendered model
    of every record of the session, in the order of the session, and
    changes nothing else; an empty store gives the empty list. Without a
    caller, or for a caller that is not an admin, it is refused with 403
    and writes nothing. *)
Theorem list_users_renders_all (self : Handler) (st : state) :
  (forall c, current_user self = Some c -> orm.admin c = true ->
     UserListAPIHandler.get self tt st
       = (Ok tt, with_written (JList (render_user <$> session st)) st))
  /\ (current_user self = None
      \/ (exists c, current_user self = Some c /\ orm.admin c = false) ->
      UserListAPIHandler.get self tt st = (Raise Forbidden, st)).
Proof.
  unfold UserListAPIHandler.get, UserListAPIHandler.get_body. split.
  - intros c Hc Hadmin. munfold. mexec.
    rewrite (render_all_run _ 0%nat st eq_refl). reflexivity.
  - intros [Hc | (c & Hc & Hadmin)]; munfold; mexec; reflexivity.
Qed.

Lemma list_users_renders_all_witness :
  UserListAPIHandler.get (Sample.request (Some Sample.root) JNull) tt
    (Sample.store [Sample.root; Sample.alice])
  = (Ok tt,
     with_written (JList [render_user Sample.root; render_user Sample.alice])
       (Sample.store [Sample.root; Sample.alice]))
  /\ UserListAPIHandler.get (Sample.request (Some Sample.root) JNull) tt
       (Sample.store [])
     = (Ok tt, with_written (JList []) (Sample.store []))
  /\ UserListAPIHandler.get (Sample.request (Some Sample.alice) JNull) tt
       (Sample.store [Sample.root; Sample.alice])
     = (Raise Forbidden, Sample.store [Sample.root; Sample.alice]).
Proof.
  refine (conj _ (conj _ _)).
  - exact (proj1 (list_users_renders_all
                    (Sample.request (Some Sample.root) JNull)
                    (Sample.store [Sample.root; Sample.alice]))
                 Sample.root eq_refl eq_refl).
  - exact (proj1 (list_users_renders_all
                    (Sample.request (Some Sample.root) JNull)
                    (Sample.store []))
                 Sample.root eq_refl eq_refl).
  - apply (proj2 (list_users_renders_all
                    (Sample.request (Some Sample.alice) JNull)
                    (Sample.store [Sample.root; Sample.alice]))).
    right. exists Sample.alice. split; reflexivity.
Defined.

Lemma get_user_run self name st c r u :
  current_user self = Some c ->
  orm.name c = name \/ orm.admin c = true ->
  lookup_name name (session st) = Some (r, u) ->
  UserAPIHandler.get self name st = (Ok tt, with_written (render_user u) st).
Proof.
  intros Hc Hallowed Hl. unfold UserAPIHandler.get.
  rewrite (admin_or_self_allowed _ _ _ _ c Hc Hallowed), Hl.
  apply lookup_name_Some in Hl as Hr. destruct Hr as [Hr _].
  unfold UserAPIHandler.get_body. munfold. mexec. reflexivity.
Qed.

(** X5. GetUser by the user itself or by an admin writes the rendered
    model of the first record carrying the name, whose name field is the
    name asked for.  Whoever calls it, GetUser is read-only: session,
    committed store, collaborator calls, status and cookie are as before,
    and at most one model has been written. *)
Theorem get_user_read_only (self : Handler) (name : string) (st : state) :
  (forall c r u,
     current_user self = Some c ->
     orm.name c = name \/ orm.admin c = true ->
     lookup_name name (session st) = Some (r, u) ->
     UserAPIHandler.get self name st
       = (Ok tt, with_written (render_user u) st)
     /\ model_get (render_user u) "name" = Some (JStr name))
  /\ ((UserAPIHandler.get self name st).2 = st
      \/ exists u, (UserAPIHandler.get self name st).2
                   = with_written (render_user u) st).
Proof.
  split.
  - intros c r u Hc Hallowed Hl.
    split; [exact (get_user_run _ _ _ c r u Hc Hallowed Hl)|].
    apply lookup_name_Some in Hl as [_ <-].
    apply user_model_shape.
  - unfold UserAPIHandler.get.
    destruct (current_user self) as [c|] eqn:Hc.
    2: { rewrite (admin_or_self_anonymous _ _ _ _ Hc). left. reflexivity. }
    destruct (String.eqb (orm.name c) name || orm.admin c) eqn:Hallowed.
    2: { apply orb_false_elim in Hallowed as [Hname Hadmin].
         apply String.eqb_neq in Hname.
         rewrite (admin_or_self_other _ _ _ _ c Hc Hname Hadmin).
         left. reflexivity. }
    assert (orm.name c = name \/ orm.admin c = true) as Hallowed'.
    { apply orb_true_iff in Hallowed as [Hname | Hadmin];
        [left; apply String.eqb_eq; exact Hname | right; exact Hadmin]. }
    destruct (lookup_name name (session st)) as [[r u]|] eqn:Hl.
    + right. exists u.
      fold (UserAPIHandler.get self name st).
      rewrite (get_user_run _ _ _ c r u Hc Hallowed' Hl). reflexivity.
    + rewrite (admin_or_self_allowed _ _ _ _ c Hc Hallowed'), Hl.
      left. reflexivity.
Qed.

Lemma get_user_read_only_witness :
  UserAPIHandler.get (Sample.request (Some Sample.alice) JNull) "alice"
    (Sample.store [Sample.root; Sample.alice])
  = (Ok tt,
     with_written (render_user Sample.alice)
       (Sample.store [Sample.root; Sample.alice]))
  /\ model_get (render_user Sample.alice) "name" = Some (JStr "alice").
Proof.
  exact (proj1 (get_user_read_only
                  (Sample.request (Some Sample.alice) JNull) "alice"
                  (Sample.store [Sample.root; Sample.alice]))
               Sample.alice 1%nat Sample.alice
               eq_refl (or_introl eq_refl) eq_refl).
Defined.

(** ** CreateUser: conflict and success *)

(** X6. CreateUser for a name that already has a record fails with the
    400 conflict, user already exists, whatever the payload, valid or
    not: the conflict is detected before the payload is looked at, and the
    state is left as it was. *)
Theorem create_user_conflict (self : Handler) (name : string) (st : state)
    (c : orm.User) (r : nat) (u : orm.User) :
  current_user self = Some c -> orm.admin c = true ->
  lookup_name name (session st) = Some (r, u) ->
  UserAPIHandler.post self name st = (Raise (Conflict (AlreadyExists name)), st).
Proof.
  intros Hc Hadmin Hl.
  unfold UserAPIHandler.post, UserAPIHandler.post_body. munfold. mexec.
  reflexivity.
Qed.

Lemma create_user_conflict_witness :
  UserAPIHandler.post
    (Sample.request (Some Sample.root) (JDict [("foo", JInt 1)])) "alice"
    (Sample.store [Sample.root; Sample.alice])
  = (Raise (Conflict (AlreadyExists "alice")),
     Sample.store [Sample.root; Sample.alice]).
Proof.
  exact (create_user_conflict
           (Sample.request (Some Sample.root) (JDict [("foo", JInt 1)]))
           "alice" (Sample.store [Sample.root; Sample.alice])
           Sample.root 1%nat Sample.alice eq_refl eq_refl eq_refl).
Defined.

Lemma post_succeeds self name st c :
  current_user self = Some c -> orm.admin c = true ->
  lookup_name name (session st) = None ->
  (truthy (json_body self) = true ->
     _check_user_model (json_body self) = Ok tt) ->
  add_user_raises self = None ->
  exists st',
    UserAPIHandler.post self name st = (Ok tt, st')
    /\ session st' = session st ++ [created_record name (json_body self)]
    /\ committed st' = session st'
    /\ status st' = 201
    /\ written st'
       = written st ++ [render_user (created_record name (json_body self))]
    /\ server_cookie st' = server_cookie st.
Proof.
  intros Hc Hadmin Hl Hvalid Hadd.
  unfold UserAPIHandler.post, UserAPIHandler.post_body, created_record,
    payload_admin, setattr. munfold.
  destruct (truthy (json_body self)) eqn:Htruthy.
  - specialize (Hvalid eq_refl).
    destruct (check_user_model_ok _ Hvalid) as (d & Hbody & _).
    rewrite Hbody in Hvalid.
    destruct (dict_get d "admin") as [v|] eqn:Hget.
    + destruct (checked_admin_is_bool d v Hvalid Hget) as [b ->].
      mexec. eexists. split; [reflexivity|]. mexec. repeat split.
    + mexec. eexists. split; [reflexivity|]. mexec. repeat split.
  - assert (match json_body self with
            | JDict d => match dict_get d "admin" with
                         | Some (JBool b) => Some b
                         | _ => None
                         end
            | _ => None
            end = None) as Hnone.
    { destruct (json_body self) as [| | | | | |d]; try reflexivity.
      destruct d; [reflexivity | discriminate]. }
    mexec. eexists. split; [reflexivity|]. mexec. repeat split.
Qed.

(** X7. CreateUser by an admin for a new name, with no payload or a valid
    one, when the authenticator accepts the user: the answer is 201 with
    the rendered record; the store gains exactly one record, appended
    after the existing ones and committed; the record carries the name
    given in the URL, whatever name the payload may carry, it is an admin
    exactly when the payload says admin true, and it has no server. *)
Theorem create_user_success (self : Handler) (name : string) (st : state)
    (c : orm.User) :
  current_user self = Some c -> orm.admin c = true ->
  lookup_name name (session st) = None ->
  (truthy (json_body self) = true ->
     _check_user_model (json_body self) = Ok tt) ->
  add_user_raises self = None ->
  exists st',
    UserAPIHandler.post self name st = (Ok tt, st')
    /\ session st' = session st ++ [created_record name (json_body self)]
    /\ committed st' = session st'
    /\ status st' = 201
    /\ written st'
       = written st ++ [render_user (created_record name (json_body self))]
    /\ orm.name (created_record name (json_body self)) = name
    /\ orm.admin (created_record name (json_body self))
       = default false (payload_admin (json_body self))
    /\ orm.running (created_record name (json_body self)) = false.
Proof.
  intros Hc Hadmin Hl Hvalid Hadd.
  destruct (post_succeeds self name st c Hc Hadmin Hl Hvalid Hadd)
    as (st' & Hrun & Hs & Hcm & Hst & Hw & _).
  exists st'. repeat split; try assumption;
    unfold created_record; destruct (payload_admin (json_body self));
    reflexivity.
Qed.

Lemma create_user_success_witness :
  exists st',
    UserAPIHandler.post
      (Sample.request (Some Sample.root)
         (JDict [("name", JStr "mallory"); ("admin", JBool true)]))
      "bob" (Sample.store [Sample.root])
    = (Ok tt, st')
    /\ session st' = [Sample.root; orm.set_admin true (orm.new "bob")]
    /\ status st' = 201.
Proof.
  destruct (create_user_success
              (Sample.request (Some Sample.root)
                 (JDict [("name", JStr "mallory"); ("admin", JBool true)]))
              "bob" (Sample.store [Sample.root]) Sample.root
              eq_refl eq_refl eq_refl (fun _ => eq_refl) eq_refl)
    as (st' & Hrun & Hs & _ & Hst & _).
  exists st'. exact (conj Hrun (conj Hs Hst)).
Defined.

(** ** DeleteUser: what is removed, and what is left on failure *)

Lemma delete_run self name st c r u :
  current_user self = Some c -> orm.admin c = true ->
  lookup_name name (session st) = Some (r, u) ->
  name <> orm.name c -> orm.stop_pending u = false ->
  orm.spawner u = None \/ on_stop self = StopDone ->
  UserAPIHandler.delete self name st =
    match delete_user_raises self with
    | None => (Ok tt, removed r (after_stop u r st))
    | Some what =>
        (Raise (PyException what),
         record_call (AuthDeleteUser r) (after_stop u r st))
    end.
Proof.
  intros Hc Hadmin Hl Hother Hstop Hgo.
  apply lookup_name_Some in Hl as Hr. destruct Hr as [Hr Hname].
  apply String.eqb_neq in Hother.
  unfold UserAPIHandler.delete, UserAPIHandler.delete_body, removed,
    after_stop. munfold.
  destruct (orm.spawner u) as [sp|] eqn:Hsp.
  - destruct Hgo as [Hgo | Hout]; [discriminate|].
    destruct (delete_user_raises self); mexec; reflexivity.
  - destruct (delete_user_raises self); mexec; reflexivity.
Qed.

Lemma lookup_name_snoc name (l : list orm.User) u :
  lookup_name name l = None -> orm.name u = name ->
  lookup_name name (l ++ [u]) = Some (length l, u).
Proof.
  intros Hl Hname. unfold lookup_name in *.
  rewrite (list_find_app_r _ _ _ Hl). cbn [list_find].
  destruct (decide (orm.name u = name)) as [_ | Hne]; [|contradiction].
  reflexivity.
Qed.

Lemma created_record_fresh name data :
  orm.name (created_record name data) = name
  /\ orm.stop_pending (created_record name data) = false
  /\ orm.spawner (created_record name data) = None.
Proof.
  unfold created_record. destruct (payload_admin data); repeat split.
Qed.

(** X8. Creating a user and then deleting it gives the store back: after
    a successful CreateUser for a new name followed by a DeleteUser of that
    name by an admin other than the user, session and committed store are
    the session the first request started from; the second request is
    answered 204 and never asks for a server to be stopped. *)
Theorem create_then_delete (self self' : Handler) (name : string)
    (st : state) (c c' : orm.User) :
  current_user self = Some c -> orm.admin c = true ->
  lookup_name name (session st) = None ->
  (truthy (json_body self) = true ->
     _check_user_model (json_body self) = Ok tt) ->
  add_user_raises self = None ->
  current_user self' = Some c' -> orm.admin c' = true ->
  name <> orm.name c' ->
  delete_user_raises self' = None ->
  exists st1 st2,
    UserAPIHandler.post self name st = (Ok tt, st1)
    /\ UserAPIHandler.delete self' name st1 = (Ok tt, st2)
    /\ session st2 = session st
    /\ committed st2 = session st
    /\ status st2 = 204
    /\ calls st2
       = calls st1 ++ [AuthDeleteUser (length (session st));
                       DbDelete (length (session st)); DbCommit].
Proof.
  intros Hc Hadmin Hl Hvalid Hadd Hc' Hadmin' Hother Hdel.
  destruct (post_succeeds self name st c Hc Hadmin Hl Hvalid Hadd)
    as (st1 & Hrun & Hs & _).
  destruct (created_record_fresh name (json_body self)) as (Hn & Hsp & Hh).
  pose proof (lookup_name_snoc name (session st) _ Hl Hn) as Hl1.
  rewrite <- Hs in Hl1.
  pose proof (delete_run self' name st1 c' _ _ Hc' Hadmin' Hl1 Hother Hsp
                (or_introl Hh)) as Hrun2.
  rewrite Hdel in Hrun2. unfold after_stop in Hrun2. rewrite Hh in Hrun2.
  exists st1, (removed (length (session st)) st1).
  split; [exact Hrun|]. split; [exact Hrun2|].
  unfold removed. cbn [session committed status calls with_status
    record_call commit_session with_session].
  rewrite Hs, snoc_delete. repeat split.
  rewrite <- !app_assoc. reflexivity.
Qed.

Lemma create_then_delete_witness :
  exists st1 st2,
    UserAPIHandler.post (Sample.request (Some Sample.root) JNull) "bob"
      (Sample.store [Sample.root; Sample.alice]) = (Ok tt, st1)
    /\ UserAPIHandler.delete (Sample.request (Some Sample.root) JNull) "bob"
         st1 = (Ok tt, st2)
    /\ session st2 = [Sample.root; Sample.alice]
    /\ committed st2 = [Sample.root; Sample.alice].
Proof.
  destruct (create_then_delete
              (Sample.request (Some Sample.root) JNull)
              (Sample.request (Some Sample.root) JNull)
              "bob" (Sample.store [Sample.root; Sample.alice])
              Sample.root Sample.root)
    as (st1 & st2 & H1 & H2 & Hs & Hc & _);
    [reflexivity | reflexivity | reflexivity | discriminate | reflexivity
    | reflexivity | reflexivity | discriminate | reflexivity |].
  exists st1, st2. exact (conj H1 (conj H2 (conj Hs Hc))).
Defined.

Lemma delete_middle_not_elem {A} (l : list A) r x :
  NoDup l -> l !! r = Some x -> x ∉ delete r l.
Proof.
  intros Hnd Hr.
  rewrite <- (take_drop_middle l r x Hr) in Hnd.
  apply NoDup_app in Hnd as (_ & Hdisj & Hnd).
  apply NoDup_cons in Hnd as [Hx _].
  rewrite <- (take_drop_middle l r x Hr) at 1.
  assert (r = length (take r l)) as Hlen.
  { rewrite length_take. apply lookup_lt_Some in Hr. lia. }
  rewrite Hlen at 1. rewrite delete_middle.
  intros Hin. apply elem_of_app in Hin as [Hin | Hin]; [|contradiction].
  apply (Hdisj x Hin). apply elem_of_cons. left. reflexivity.
Qed.

(** X9. DeleteUser for a name that has no record fails NotFound and leaves
    the state as it was.  When names are unique in the store, a successful
    DeleteUser makes the name unknown: it resolves to no record afterwards,
    so that deleting it again fails NotFound. *)
Theorem delete_user_gone (self : Handler) (name : string) (st : state)
    (c : orm.User) :
  current_user self = Some c -> orm.admin c = true ->
  (lookup_name name (session st) = None ->
     UserAPIHandler.delete self name st = (Raise NotFound, st))
  /\ (forall st', NoDup (names st) ->
        UserAPIHandler.delete self name st = (Ok tt, st') ->
        lookup_name name (session st') = None
        /\ forall self', current_user self' = Some c ->
             UserAPIHandler.delete self' name st' = (Raise NotFound, st')).
Proof.
  intros Hc Hadmin.
  assert (forall self0 st0, current_user self0 = Some c ->
            lookup_name name (session st0) = None ->
            UserAPIHandler.delete self0 name st0 = (Raise NotFound, st0))
    as Habsent.
  { intros self0 st0 Hc0 Hl.
    unfold UserAPIHandler.delete, UserAPIHandler.delete_body. munfold.
    mexec. reflexivity. }
  split; [apply Habsent; exact Hc|].
  intros st' Hnd Hok.
  assert (lookup_name name (session st') = None) as Hgone.
  2: { split; [exact Hgone|]. intros self' Hc'. apply Habsent; assumption. }
  destruct (lookup_name name (session st)) as [[r u]|] eqn:Hl.
  2: { rewrite (Habsent self st Hc Hl) in Hok. discriminate. }
  apply lookup_name_Some in Hl as Hr. destruct Hr as [Hr Hname].
  assert (names st' = delete r (names st)) as Hnames.
  { revert Hok.
    unfold UserAPIHandler.delete, UserAPIHandler.delete_body. munfold. mexec.
    destruct (String.eqb name (orm.name c)); mexec;
      [intros Hdead; discriminate Hdead|].
    destruct (orm.stop_pending u); mexec; [intros Hdead; discriminate Hdead|].
    destruct (orm.spawner u) as [sp|]; mexec.
    - destruct (on_stop self); mexec;
        try (intros Hdead; discriminate Hdead).
      destruct (delete_user_raises self); mexec;
        [intros Hdead; discriminate Hdead|].
      intros [= <-]. unfold names. mexec.
      rewrite list_fmap_delete, names_alter by reflexivity. reflexivity.
    - destruct (delete_user_raises self); mexec;
        [intros Hdead; discriminate Hdead|].
      intros [= <-]. unfold names. mexec.
      rewrite list_fmap_delete. reflexivity. }
  apply lookup_name_absent. intros u' Hin Hname'.
  assert (name ∈ names st') as Hin'.
  { unfold names. apply list_elem_of_fmap. exists u'. split; [symmetry|]; assumption. }
  rewrite Hnames in Hin'.
  apply (delete_middle_not_elem (names st) r name Hnd); [|exact Hin'].
  unfold names. rewrite list_lookup_fmap, Hr. cbn. rewrite Hname. reflexivity.
Qed.

Lemma delete_user_gone_witness :
  UserAPIHandler.delete (Sample.request (Some Sample.root) JNull) "carol"
    (Sample.store [Sample.root; Sample.alice])
  = (Raise NotFound, Sample.store [Sample.root; Sample.alice])
  /\ lookup_name "alice"
       (session (removed 1 (Sample.store [Sample.root; Sample.alice])))
     = None.
Proof.
  destruct (delete_user_gone (Sample.request (Some Sample.root) JNull)
              "carol" (Sample.store [Sample.root; Sample.alice])
              Sample.root eq_refl eq_refl) as [Habsent _].
  destruct (delete_user_gone (Sample.request (Some Sample.root) JNull)
              "alice" (Sample.store [Sample.root; Sample.alice])
              Sample.root eq_refl eq_refl) as [_ Hgone].
  split; [exact (Habsent eq_refl)|].
  apply (Hgone (removed 1 (Sample.store [Sample.root; Sample.alice]))).
  - apply NoDup_cons. split; [|apply NoDup_singleton].
    intros Hin. apply list_elem_of_singleton in Hin. discriminate.
  - reflexivity.
Defined.



(** ** UpdateUser: what changes and what does not *)

Lemma with_session_id st : with_session (fun l => l) st = st.
Proof. destruct st. reflexivity. Qed.

Lemma for_each_setattr_state r (d : dict json) :
  forall st u,
    Forall allowed_key (dict_keys d) -> Forall well_typed d ->
    session st !! r = Some u ->
    for_each d (fun kv => setattr (Some r) kv.1 kv.2) st
      = (Ok tt, with_session (fun l => <[r:=apply_items d u]> l) st).
Proof.
  induction d as [|[k v] d IH]; intros st u Hkeys Hwt Hr.
  - cbn [for_each apply_items fold_left]. unfold ret. f_equal.
    unfold with_session. rewrite (list_insert_id _ _ _ Hr).
    destruct st. reflexivity.
  - unfold dict_keys in Hkeys. rewrite fmap_cons in Hkeys.
    apply Forall_cons in Hkeys as [Hk Hkeys].
    apply Forall_cons in Hwt as [[Hname Hadmin] Hwt].
    cbn [fst snd] in Hk, Hname, Hadmin.
    cbn [for_each fst snd]. unfold bind at 1.
    assert (setattr (Some r) k v st
              = (Ok tt, with_session (alter (fun u => apply_item u (k, v)) r) st)
            /\ session (with_session (alter (fun u => apply_item u (k, v)) r) st) !! r
               = Some (apply_item u (k, v))) as [-> Hr'].
    { split.
      - destruct Hk as [-> | ->].
        + destruct (Hname eq_refl) as [s ->]. apply (update_run _ _ _ u Hr).
        + destruct (Hadmin eq_refl) as [b ->]. apply (update_run _ _ _ u Hr).
      - cbn [session with_session]. rewrite list_lookup_alter_eq, Hr. reflexivity. }
    rewrite (IH _ _ Hkeys Hwt Hr').
    unfold with_session. cbn [session committed calls status written
      server_cookie apply_items fold_left].
    rewrite insert_alter_same. reflexivity.
Qed.

Lemma apply_items_frame (d : dict json) : forall u,
  orm.server (apply_items d u) = orm.server u
  /\ orm.spawner (apply_items d u) = orm.spawner u
  /\ orm.spawn_pending (apply_items d u) = orm.spawn_pending u
  /\ orm.stop_pending (apply_items d u) = orm.stop_pending u
  /\ orm.last_activity (apply_items d u) = orm.last_activity u.
Proof.
  induction d as [|[k v] d IH]; intros u; [repeat split|].
  cbn [apply_items fold_left]. fold (apply_items d (apply_item u (k, v))).
  destruct (IH (apply_item u (k, v))) as (-> & -> & -> & -> & ->).
  unfold apply_item. cbn [fst snd].
  destruct v; try (repeat split; fail);
    match goal with |- context [String.eqb ?a ?b] => destruct (String.eqb a b) end;
    repeat split.
Qed.

Lemma apply_items_fields (d : dict json) : forall u,
  NoDup (dict_keys d) ->
  orm.name (apply_items d u)
    = match dict_get d "name" with Some (JStr s) => s | _ => orm.name u end
  /\ orm.admin (apply_items d u)
     = match dict_get d "admin" with Some (JBool b) => b | _ => orm.admin u end.
Proof.
  induction d as [|[k v] d IH]; intros u Hnd; [split; reflexivity|].
  unfold dict_keys in Hnd. rewrite fmap_cons in Hnd.
  apply NoDup_cons in Hnd as [Hk Hnd]. cbn [fst] in Hk.
  cbn [apply_items fold_left]. fold (apply_items d (apply_item u (k, v))).
  destruct (IH (apply_item u (k, v)) Hnd) as [-> ->].
  assert (forall k', k = k' -> dict_get d k' = None) as Hfresh.
  { intros k' <-. destruct (dict_get d k) eqn:Hget; [|reflexivity].
    exfalso. apply Hk. apply dict_get_elem_of in Hget.
    unfold dict_keys. apply list_elem_of_fmap. exists (k, j). split; [reflexivity | exact Hget]. }
  cbn [dict_get]. unfold apply_item. cbn [fst snd].
  destruct (String.eqb_spec k "name") as [Hn | Hn];
    destruct (String.eqb_spec k "admin") as [Ha | Ha];
    try (rewrite (Hfresh _ Hn)); try (rewrite (Hfresh _ Ha));
    try (exfalso; congruence);
    destruct v; split; reflexivity.
Qed.

Lemma patch_run self name st c r u d :
  current_user self = Some c -> orm.admin c = true ->
  lookup_name name (session st) = Some (r, u) ->
  json_body self = JDict d ->
  _check_user_model (JDict d) = Ok tt ->
  UserAPIHandler.patch self name st
    = (Ok tt, updated r (apply_items d u) st).
Proof.
  intros Hc Hadmin Hl Hbody Hcheck.
  apply lookup_name_Some in Hl as Hr. destruct Hr as [Hr _].
  destruct (check_user_model_ok _ Hcheck) as (d' & [= <-] & Hkeys & Hwt).
  pose proof (for_each_setattr_state r d st u Hkeys Hwt Hr) as Hloop.
  unfold UserAPIHandler.patch, UserAPIHandler.patch_body, updated. munfold.
  mexec. rewrite list_lookup_insert_eq by (apply lookup_lt_Some in Hr; exact Hr).
  mexec. reflexivity.
Qed.

(** X11. UpdateUser for a name that has no record fails NotFound and
    leaves the state as it was, whatever the payload, valid or not: the
    target is looked up before the payload is validated.  UpdateUser with
    the empty mapping as payload passes validation, changes no record,
    commits all the same and answers the model of the record as it is. *)
Theorem update_user_edges (self : Handler) (name : string) (st : state)
    (c : orm.User) :
  current_user self = Some c -> orm.admin c = true ->
  (lookup_name name (session st) = None ->
     UserAPIHandler.patch self name st = (Raise NotFound, st))
  /\ (forall r u,
        lookup_name name (session st) = Some (r, u) ->
        json_body self = JDict [] ->
        UserAPIHandler.patch self name st = (Ok tt, updated r u st)
        /\ session (updated r u st) = session st
        /\ committed (updated r u st) = session st
        /\ written (updated r u st) = written st ++ [render_user u]).
Proof.
  intros Hc Hadmin. split.
  - intros Hl.
    unfold UserAPIHandler.patch, UserAPIHandler.patch_body. munfold. mexec.
    reflexivity.
  - intros r u Hl Hbody.
    split; [exact (patch_run self name st c r u [] Hc Hadmin Hl Hbody eq_refl)|].
    apply lookup_name_Some in Hl as [Hr _].
    unfold updated. cbn [session committed written with_written record_call
      commit_session with_session].
    rewrite (list_insert_id _ _ _ Hr). repeat split.
Qed.

Lemma update_user_edges_witness :
  UserAPIHandler.patch
    (Sample.request (Some Sample.root) (JDict [("foo", JInt 1)])) "carol"
    (Sample.store [Sample.root; Sample.alice])
  = (Raise NotFound, Sample.store [Sample.root; Sample.alice])
  /\ UserAPIHandler.patch (Sample.request (Some Sample.root) (JDict []))
       "alice" (Sample.store [Sample.root; Sample.alice])
     = (Ok tt,
        updated 1 Sample.alice (Sample.store [Sample.root; Sample.alice])).
Proof.
  split.
  - exact (proj1 (update_user_edges
                    (Sample.request (Some Sample.root)
                       (JDict [("foo", JInt 1)]))
                    "carol" (Sample.store [Sample.root; Sample.alice])
                    Sample.root eq_refl eq_refl) eq_refl).
  - exact (proj1 (proj2 (update_user_edges
                           (Sample.request (Some Sample.root) (JDict []))
                           "alice"
                           (Sample.store [Sample.root; Sample.alice])
                           Sample.root eq_refl eq_refl)
                        1%nat Sample.alice eq_refl eq_refl)).
Defined.

(** X12. UpdateUser by an admin on an existing target with a valid
    payload replaces the target by the record the items of the payload
    make of it, leaves every other record of the session as it is, commits
    the session and writes the model of the new record.  Of the target,
    only name and admin can change: server, spawner, pending flags and last
    activity are as before; with distinct keys, the name is the payload's
    name if it has one and the old name otherwise, and likewise for the
    admin flag. *)
Theorem update_user_success (self : Handler) (name : string) (st : state)
    (c : orm.User) (r : nat) (u : orm.User) (d : dict json) :
  current_user self = Some c -> orm.admin c = true ->
  lookup_name name (session st) = Some (r, u) ->
  json_body self = JDict d ->
  _check_user_model (JDict d) = Ok tt ->
  let u' := apply_items d u in
  UserAPIHandler.patch self name st = (Ok tt, updated r u' st)
  /\ session (updated r u' st) !! r = Some u'
  /\ (forall j, j <> r -> session (updated r u' st) !! j = session st !! j)
  /\ committed (updated r u' st) = session (updated r u' st)
  /\ written (updated r u' st) = written st ++ [render_user u']
  /\ (orm.server u' = orm.server u
      /\ orm.spawner u' = orm.spawner u
      /\ orm.spawn_pending u' = orm.spawn_pending u
      /\ orm.stop_pending u' = orm.stop_pending u
      /\ orm.last_activity u' = orm.last_activity u)
  /\ (NoDup (dict_keys d) ->
      orm.name u'
        = match dict_get d "name" with Some (JStr s) => s | _ => orm.name u end
      /\ orm.admin u'
         = match dict_get d "admin" with
           | Some (JBool b) => b
           | _ => orm.admin u
           end).
Proof.
  intros Hc Hadmin Hl Hbody Hcheck u'.
  split; [exact (patch_run self name st c r u d Hc Hadmin Hl Hbody Hcheck)|].
  apply lookup_name_Some in Hl as [Hr _].
  unfold updated. cbn [session committed written with_written record_call
    commit_session with_session].
  split; [apply list_lookup_insert_eq; apply lookup_lt_Some in Hr; exact Hr|].
  split; [intros j Hj; apply list_lookup_insert_ne; congruence|].
  split; [reflexivity|]. split; [reflexivity|].
  split; [apply apply_items_frame | apply apply_items_fields].
Qed.

Lemma update_user_success_witness :
  UserAPIHandler.patch
    (Sample.request (Some Sample.root) (JDict [("admin", JBool true)]))
    "alice" (Sample.store [Sample.root; Sample.alice_running Sample.live])
  = (Ok tt,
     updated 1 (orm.set_admin true (Sample.alice_running Sample.live))
       (Sample.store [Sample.root; Sample.alice_running Sample.live])).
Proof.
  apply (update_user_success
           (Sample.request (Some Sample.root) (JDict [("admin", JBool true)]))
           "alice"
           (Sample.store [Sample.root; Sample.alice_running Sample.live])
           Sample.root 1%nat (Sample.alice_running Sample.live)
           [("admin", JBool true)]);
    reflexivity.
Defined.








(** ** StopServer twice *)

Lemma stop_pending_accepted self name st c r u :
  current_user self = Some c ->
  orm.name c = name \/ orm.admin c = true ->
  lookup_name name (session st) = Some (r, u) ->
  orm.stop_pending u = true ->
  UserServerAPIHandler.delete self name st = (Ok tt, with_status 202 st).
Proof.
  intros Hc Hallowed Hl Hstop. unfold UserServerAPIHandler.delete.
  rewrite (admin_or_self_allowed _ _ _ _ c Hc Hallowed), Hl.
  apply lookup_name_Some in Hl as Hr. destruct Hr as [Hr _].
  unfold UserServerAPIHandler.delete_body. munfold. mexec. reflexivity.
Qed.

Lemma lookup_name_alter name (l : list orm.User) r u f :
  lookup_name name l = Some (r, u) -> orm.name (f u) = orm.name u ->
  lookup_name name (alter f r l) = Some (r, f u).
Proof.
  intros Hl Hf. unfold lookup_name in *.
  apply list_find_Some in Hl as (Hr & Hname & Hfirst).
  apply list_find_Some. split; [|split].
  - rewrite list_lookup_alter_eq, Hr. reflexivity.
  - rewrite Hf. exact Hname.
  - intros j y Hj Hlt. rewrite list_lookup_alter_ne in Hj by lia.
    exact (Hfirst j y Hj Hlt).
Qed.

(** X15. Once a StopServer has been answered 202, a further StopServer for
    the same user, by the user or by an admin, is answered 202 as well and
    does nothing but set the status: the spawner is neither polled nor
    asked to stop again, and the session is as the first request left
    it. *)
Theorem stop_server_twice (self self' : Handler) (name : string)
    (st st1 : state) (c c' : orm.User) (r : nat) (u : orm.User) :
  current_user self = Some c ->
  orm.name c = name \/ orm.admin c = true ->
  lookup_name name (session st) = Some (r, u) ->
  UserServerAPIHandler.delete self name st = (Ok tt, st1) ->
  status st1 = 202 ->
  current_user self' = Some c' ->
  orm.name c' = name \/ orm.admin c' = true ->
  UserServerAPIHandler.delete self' name st1 = (Ok tt, with_status 202 st1)
  /\ calls (with_status 202 st1) = calls st1
  /\ session (with_status 202 st1) = session st1.
Proof.
  intros Hc Hallowed Hl Hrun Hstatus Hc' Hallowed'.
  split; [|split; reflexivity].
  assert (exists u1, lookup_name name (session st1) = Some (r, u1)
                     /\ orm.stop_pending u1 = true) as (u1 & Hl1 & Hp1).
  { revert Hrun. unfold UserServerAPIHandler.delete.
    rewrite (admin_or_self_allowed _ _ _ _ c Hc Hallowed), Hl.
    apply lookup_name_Some in Hl as Hr. destruct Hr as [Hr _].
    unfold UserServerAPIHandler.delete_body. munfold. mexec.
    destruct (orm.stop_pending u) eqn:Hstop; mexec.
    - intros [= <-]. exists u. split; [exact Hl | exact Hstop].
    - destruct (orm.running u); mexec; [|intros Hdead; discriminate Hdead].
      destruct (orm.spawner u) as [sp|]; mexec;
        [|intros Hdead; discriminate Hdead].
      destruct (orm.poll sp); mexec; [intros Hdead; discriminate Hdead|].
      destruct (on_stop self); mexec.
      + intros [= <-]. discriminate Hstatus.
      + intros [= <-]. exists (stopping u). split; [|reflexivity].
        cbn [session with_status with_session record_call].
        apply lookup_name_alter; [exact Hl | reflexivity].
      + intros Hdead; discriminate Hdead. }
  exact (stop_pending_accepted self' name st1 c' r u1 Hc' Hallowed' Hl1 Hp1).
Qed.

Lemma stop_server_twice_witness :
  UserServerAPIHandler.delete (Sample.request (Some Sample.root) JNull)
    "alice"
    (with_status 202
       (with_session (alter stopping 1%nat)
          (record_call (StopSingleUser 1)
             (record_call (SpawnerPoll 1)
                (Sample.store
                   [Sample.root; Sample.alice_running Sample.live])))))
  = (Ok tt,
     with_status 202
       (with_status 202
          (with_session (alter stopping 1%nat)
             (record_call (StopSingleUser 1)
                (record_call (SpawnerPoll 1)
                   (Sample.store
                      [Sample.root; Sample.alice_running Sample.live])))))).
Proof.
  apply (stop_server_twice
           (Sample.slow (Sample.request (Some Sample.alice) JNull))
           (Sample.request (Some Sample.root) JNull) "alice"
           (Sample.store [Sample.root; Sample.alice_running Sample.live])
           _ Sample.alice Sample.root 1%nat
           (Sample.alice_running Sample.live));
    [reflexivity | left; reflexivity | reflexivity | reflexivity
    | reflexivity | reflexivity | right; reflexivity].
Defined.

(** ** GrantAdminAccess with the flag on *)

(** X16. With admin access enabled, GrantAdminAccess by an admin fails
    NotFound when the name has no record, fails NotRunning when the
    target is not running, and otherwise sets the server cookie for the
    target's record (not the caller's); in each case the request has
    logged its warning first, and nothing of the session changes. *)
Theorem grant_admin_access_outcomes (self : Handler) (name : string)
    (st : state) (c : orm.User) :
  current_user self = Some c -> orm.admin c = true ->
  admin_access self = Some true ->
  (lookup_name name (session st) = None ->
     UserAdminAccessAPIHandler.post self name st
       = (Raise NotFound, record_call LogWarn st))
  /\ (forall r u,
        lookup_name name (session st) = Some (r, u) ->
        (orm.running u = false ->
           UserAdminAccessAPIHandler.post self name st
             = (Raise (NotRunning name), record_call LogWarn st))
        /\ (orm.running u = true ->
              UserAdminAccessAPIHandler.post self name st
                = (Ok tt,
                   with_cookie u
                     (record_call (SetServerCookie r)
                        (record_call LogWarn st)))
              /\ server_cookie
                   (with_cookie u
                      (record_call (SetServerCookie r)
                         (record_call LogWarn st))) = Some u
              /\ session
                   (with_cookie u
                      (record_call (SetServerCookie r)
                         (record_call LogWarn st))) = session st)).
Proof.
  intros Hc Hadmin Hflag.
  unfold UserAdminAccessAPIHandler.post, UserAdminAccessAPIHandler.post_body.
  munfold. split.
  - intros Hl. mexec. reflexivity.
  - intros r u Hl. apply lookup_name_Some in Hl as Hr. destruct Hr as [Hr _].
    split; intros Hrun; mexec; [reflexivity | repeat split].
Qed.

Lemma grant_admin_access_outcomes_witness :
  UserAdminAccessAPIHandler.post
    (mkHandler (Some Sample.root) JNull (Some true) None None
               (SpawnDone Sample.live Sample.srv) StopDone)
    "alice" (Sample.store [Sample.root; Sample.alice_running Sample.live])
  = (Ok tt,
     with_cookie (Sample.alice_running Sample.live)
       (record_call (SetServerCookie 1)
          (record_call LogWarn
             (Sample.store [Sample.root; Sample.alice_running Sample.live]))))
  /\ UserAdminAccessAPIHandler.post
       (mkHandler (Some Sample.root) JNull (Some true) None None
                  (SpawnDone Sample.live Sample.srv) StopDone)
       "alice" (Sample.store [Sample.root; Sample.alice])
     = (Raise (NotRunning "alice"),
        record_call LogWarn (Sample.store [Sample.root; Sample.alice])).
Proof.
  split.
  - destruct (grant_admin_access_outcomes
                (mkHandler (Some Sample.root) JNull (Some true) None None
                           (SpawnDone Sample.live Sample.srv) StopDone)
                "alice"
                (Sample.store [Sample.root; Sample.alice_running Sample.live])
                Sample.root eq_refl eq_refl eq_refl) as [_ H].
    exact (proj1 (proj2 (H 1%nat (Sample.alice_running Sample.live) eq_refl)
                        eq_refl)).
  - destruct (grant_admin_access_outcomes
                (mkHandler (Some Sample.root) JNull (Some true) None None
                           (SpawnDone Sample.live Sample.srv) StopDone)
                "alice" (Sample.store [Sample.root; Sample.alice])
                Sample.root eq_refl eq_refl eq_refl) as [_ H].
    exact (proj1 (H 1%nat Sample.alice eq_refl) eq_refl).
Defined.

(** ** What the handlers other than GrantAdminAccess never touch *)

Create HintDb obs.

Section observable.
Context {X : Type} (p : state -> X).
Hypothesis p_session : forall f st, p (with_session f st) = p st.
Hypothesis p_call : forall c st, p (record_call c st) = p st.
Hypothesis p_commit : forall st, p (commit_session st) = p st.
Hypothesis p_status : forall code st, p (with_status code st) = p st.
Hypothesis p_written : forall chunk st, p (with_written chunk st) = p st.

Lemma obs_ret {A} (a : A) : keeps_obs p (ret a).
Proof. intros st. reflexivity. Qed.

Lemma obs_raise {A} (e : exn) : keeps_obs p (@raise A e).
Proof. intros st. reflexivity. Qed.

Lemma obs_lift {A} (r : result A) : keeps_obs p (lift r).
Proof. intros st. reflexivity. Qed.

Lemma obs_gets {A} (f : state -> A) : keeps_obs p (gets f).
Proof. intros st. reflexivity. Qed.

Lemma obs_getattr {A} user (f : orm.User -> A) : keeps_obs p (getattr user f).
Proof.
  intros st. unfold getattr. destruct user as [r|]; [|reflexivity].
  destruct (session st !! r); reflexivity.
Qed.

Lemma obs_bind {A B} (m : M A) (k : A -> M B) :
  keeps_obs p m -> (forall a, keeps_obs p (k a)) -> keeps_obs p (bind m k).
Proof.
  intros Hm Hk st. unfold bind. specialize (Hm st).
  destruct (m st) as [[a|e] st1]; cbn [snd] in *.
  - rewrite Hk. exact Hm.
  - exact Hm.
Qed.

Lemma obs_try_except {A} (m : M A) (h : exn -> M A) :
  keeps_obs p m -> (forall e, keeps_obs p (h e)) -> keeps_obs p (try_except m h).
Proof.
  intros Hm Hh st. unfold try_except. specialize (Hm st).
  destruct (m st) as [[a|e] st1]; cbn [snd] in *.
  - exact Hm.
  - rewrite Hh. exact Hm.
Qed.

Lemma obs_when b (m : M unit) : keeps_obs p m -> keeps_obs p (when b m).
Proof. intros Hm. destruct b; [exact Hm | apply obs_ret]. Qed.

Ltac oframe :=
  repeat first
    [ solve [auto with obs]
    | match goal with
      | |- keeps_obs _ (bind _ _) => apply obs_bind; [|intros ?]
      | |- keeps_obs _ (when _ _) => apply obs_when
      | |- keeps_obs _ (try_except _ _) => apply obs_try_except; [|intros ?]
      | |- keeps_obs _ (if ?b then _ else _) => destruct b
      | |- keeps_obs _ (match ?x with _ => _ end) => destruct x
      end ].

Lemma obs_modify (f : state -> state) :
  (forall st, p (f st) = p st) -> keeps_obs p (modify f).
Proof. intros Hf st. apply Hf. Qed.

Lemma obs_do_call c : keeps_obs p (do_call c).
Proof. apply obs_modify, p_call. Qed.

Lemma obs_write chunk : keeps_obs p (write chunk).
Proof. apply obs_modify, p_written. Qed.

Lemma obs_set_status code : keeps_obs p (set_status code).
Proof. apply obs_modify, p_status. Qed.

Lemma obs_find_user self name : keeps_obs p (find_user self name).
Proof. intros st. reflexivity. Qed.

Lemma obs_get_current_user self : keeps_obs p (get_current_user self).
Proof. intros st. reflexivity. Qed.

Lemma obs_get_json_body self : keeps_obs p (get_json_body self).
Proof. intros st. reflexivity. Qed.

#[local] Hint Resolve obs_ret obs_raise obs_lift obs_gets obs_getattr
  obs_do_call obs_write obs_set_status obs_find_user obs_get_current_user
  obs_get_json_body : obs.

Lemma obs_log_warn : keeps_obs p log_warn.
Proof. unfold log_warn. oframe. Qed.

Lemma obs_log_error : keeps_obs p log_error.
Proof. unfold log_error. oframe. Qed.

Lemma obs_db_commit : keeps_obs p db_commit.
Proof. unfold db_commit. oframe. Qed.

Lemma obs_db_delete user : keeps_obs p (db_delete user).
Proof. unfold db_delete. oframe. apply obs_modify. intros st. apply p_session. Qed.

Lemma obs_update user f : keeps_obs p (update user f).
Proof. unfold update. oframe; apply obs_modify; intros st; apply p_session. Qed.

#[local] Hint Resolve obs_log_warn obs_log_error obs_db_commit obs_db_delete
  obs_update : obs.

Lemma obs_setattr user k v : keeps_obs p (setattr user k v).
Proof. unfold setattr. oframe. Qed.

Lemma obs_user_model user : keeps_obs p (user_model user).
Proof. unfold user_model. oframe. Qed.

Lemma obs_spawner_poll user sp : keeps_obs p (spawner_poll user sp).
Proof. unfold spawner_poll. oframe. Qed.

Lemma obs_spawn_single_user self user : keeps_obs p (spawn_single_user self user).
Proof. unfold spawn_single_user. oframe. Qed.

Lemma obs_stop_single_user self user : keeps_obs p (stop_single_user self user).
Proof. unfold stop_single_user. oframe. Qed.

Lemma obs_authenticator_add_user self user :
  keeps_obs p (authenticator_add_user self user).
Proof. unfold authenticator_add_user. oframe. Qed.

Lemma obs_authenticator_delete_user self user :
  keeps_obs p (authenticator_delete_user self user).
Proof. unfold authenticator_delete_user. oframe. Qed.

Lemma obs_user_from_username self name :
  keeps_obs p (user_from_username self name).
Proof.
  unfold user_from_username. oframe; apply obs_modify; intros st;
    apply p_session.
Qed.

#[local] Hint Resolve obs_setattr obs_user_model obs_spawner_poll
  obs_spawn_single_user obs_stop_single_user obs_authenticator_add_user
  obs_authenticator_delete_user obs_user_from_username : obs.

Lemma obs_for_each {A} (l : list A) (f : A -> M unit) :
  (forall a, keeps_obs p (f a)) -> keeps_obs p (for_each l f).
Proof. intros Hf. induction l as [|a l IH]; cbn [for_each]; oframe. Qed.

Lemma obs_render_all n from : keeps_obs p (UserListAPIHandler.render_all n from).
Proof.
  revert from.
  induction n as [|n IH]; intros from; cbn [UserListAPIHandler.render_all];
    oframe.
Qed.

Lemma obs_handlers self name :
  keeps_obs p (UserListAPIHandler.get self tt)
  /\ keeps_obs p (UserAPIHandler.get self name)
  /\ keeps_obs p (UserAPIHandler.post self name)
  /\ keeps_obs p (UserAPIHandler.delete self name)
  /\ keeps_obs p (UserAPIHandler.patch self name)
  /\ keeps_obs p (UserServerAPIHandler.post self name)
  /\ keeps_obs p (UserServerAPIHandler.delete self name).
Proof.
  pose proof obs_render_all as Hall.
  repeat split.
  - unfold UserListAPIHandler.get, admin_only, UserListAPIHandler.get_body.
    oframe.
  - unfold UserAPIHandler.get, admin_or_self, UserAPIHandler.get_body. oframe.
  - unfold UserAPIHandler.post, admin_only, UserAPIHandler.post_body. oframe.
  - unfold UserAPIHandler.delete, admin_only, UserAPIHandler.delete_body.
    oframe.
  - unfold UserAPIHandler.patch, admin_only, UserAPIHandler.patch_body.
    oframe. apply obs_for_each. intros kv. oframe.
  - unfold UserServerAPIHandler.post, admin_or_self,
      UserServerAPIHandler.post_body. oframe.
  - unfold UserServerAPIHandler.delete, admin_or_self,
      UserServerAPIHandler.delete_body. oframe.
Qed.

End observable.

(** X17. GrantAdminAccess is the only operation that sets a server
    cookie: ListUsers, GetUser, CreateUser, DeleteUser, UpdateUser,
    SpawnServer and StopServer leave the cookie of the response as it was,
    for every caller, name, payload and store, whether they succeed or
    fail. *)
Theorem only_admin_access_sets_cookie (self : Handler) (name : string)
    (st : state) :
  server_cookie (UserListAPIHandler.get self tt st).2 = server_cookie st
  /\ server_cookie (UserAPIHandler.get self name st).2 = server_cookie st
  /\ server_cookie (UserAPIHandler.post self name st).2 = server_cookie st
  /\ server_cookie (UserAPIHandler.delete self name st).2 = server_cookie st
  /\ server_cookie (UserAPIHandler.patch self name st).2 = server_cookie st
  /\ server_cookie (UserServerAPIHandler.post self name st).2
     = server_cookie st
  /\ server_cookie (UserServerAPIHandler.delete self name st).2
     = server_cookie st.
Proof.
  destruct (obs_handlers server_cookie
              (fun _ _ => eq_refl) (fun _ _ => eq_refl) (fun _ => eq_refl)
              (fun _ _ => eq_refl) (fun _ _ => eq_refl) self name)
    as (H1 & H2 & H3 & H4 & H5 & H6 & H7).
  repeat split; [apply H1 | apply H2 | apply H3 | apply H4 | apply H5
                | apply H6 | apply H7].
Qed.

(** ** The admin-only operations and other callers *)


